(** * Conversion-readiness scoring engine: a shallow embedding

    The development follows [analytics/scoring.py], [analytics/signals.py]
    and the marketplace-ratio policy of [data/generator.py].

    Number model.  Python floats are read as exact rationals ([Q], compared
    with [==]); Python ints are [Z].  Where pandas can produce a non-finite
    value (a percentage change over a zero bucket) the value lives in
    [pyfloat], rationals extended with the two infinities and NaN, with the
    IEEE rules for the special values.  [np.log10] is a library function and
    is taken as a parameter [log10 : Q -> Q] of the scoring section; the few
    statements that need a fact about it list that fact as a hypothesis. *)

From Stdlib Require Import QArith Qround Qabs Qminmax Lqa.
From Stdlib Require Import ZArith Lia List Sorted String Bool.
From Stdlib Require Import DecimalString.
Import ListNotations.

Open Scope Q_scope.

(* ------------------------------------------------------------------ *)
(** * Python numerics *)

Module Py.

Definition leb (x y : Q) : bool := Qle_bool x y.
Definition ltb (x y : Q) : bool := negb (Qle_bool y x).
Definition geb (x y : Q) : bool := Qle_bool y x.
Definition gtb (x y : Q) : bool := negb (Qle_bool x y).

(** [max(a, b)] and [min(a, b)] of the Python builtins: the first argument
    is kept unless the second is strictly better. *)
Definition max (a b : Q) : Q := if gtb b a then b else a.
Definition min (a b : Q) : Q := if ltb b a then b else a.

(** Nearest integer, ties to the even one. *)
Definition round_half_even (q : Q) : Z :=
  let f := Qfloor q in
  match Qcompare (q - inject_Z f) (1 # 2) with
  | Lt => f
  | Gt => (f + 1)%Z
  | Eq => if Z.even f then f else (f + 1)%Z
  end.

(** [round(x, ndigits)] for a non-negative number of digits. *)
Definition round (x : Q) (ndigits : nat) : Q :=
  let scale := inject_Z (10 ^ Z.of_nat ndigits) in
  inject_Z (round_half_even (x * scale)) / scale.

End Py.

Infix "<=?" := Py.leb (at level 70, no associativity) : Q_scope.
Infix "<?" := Py.ltb (at level 70, no associativity) : Q_scope.
Infix ">=?" := Py.geb (at level 70, no associativity) : Q_scope.
Infix ">?" := Py.gtb (at level 70, no associativity) : Q_scope.

(* ------------------------------------------------------------------ *)
(** * analytics/scoring.py *)

Module Scoring.

Local Open Scope string_scope.
Local Open Scope Q_scope.

Definition STAGE_THRESHOLDS : list (Q * string) :=
  [ (78, "Enterprise Ready");
    (63, "High Velocity");
    (48, "Qualified");
    (33, "Nurture");
    (0, "At Risk") ].

(** The columns of the row that [score_account] and the action helpers
    read.  A column looked up with [row.get(key, default)] is an option:
    [None] is the column being absent from the frame. *)
Record Row := {
  latest_total_spend : Q;
  computed_growth_rate : option Q;
  growth_rate : option Q;
  daily_requests : Z;
  prod_ratio : Q;
  error_rate : Q;
  n_models : Z;
  unique_users : Z;
  enterprise_seats : Z;
  n_active_channels : option Z;
  n_channels : option Z;
  marketplace_to_direct : Q;
  days_inactive : Z
}.

(** The dictionary returned by [score_account]. *)
Record Scores := {
  conversion_score : Q;
  stage : string;
  usage_intensity_score : Q;
  production_maturity_score : Q;
  team_adoption_score : Q;
  cross_channel_score : Q;
  risk_penalty : Q
}.

(** A row of the frame produced by [score_all_accounts]: the enriched
    columns together with the score columns merged back in. *)
Record ScoredRow := {
  base : Row;
  scores : Scores
}.

Definition _score_growth (growth_rate : Q) : Q :=
  if growth_rate >=? 0.50 then 100
  else if growth_rate >=? 0.20 then 40 + (growth_rate - 0.20) / 0.30 * 60
  else if growth_rate >=? 0 then growth_rate / 0.20 * 40
  else Py.max 0 (20 + growth_rate * 100).

Definition _score_prod_ratio (prod_ratio : Q) : Q :=
  if prod_ratio >=? 0.95 then 100
  else if prod_ratio >=? 0.40 then (prod_ratio - 0.40) / 0.55 * 100
  else prod_ratio / 0.40 * 10.

Definition _score_error_rate (error_rate : Q) : Q :=
  if (0.005 <=? error_rate) && (error_rate <=? 0.02) then 100
  else if error_rate <? 0.005 then 50 + error_rate / 0.005 * 50
  else if error_rate <=? 0.05 then
    Py.max 0 (100 - (error_rate - 0.02) / 0.03 * 80)
  else Py.max 0 (20 - (error_rate - 0.05) / 0.05 * 20).

Definition _score_model_diversity (n_models : Z) : Q :=
  if (n_models >=? 3)%Z then 100
  else if (n_models =? 2)%Z then 60
  else if (n_models =? 1)%Z then 20
  else 0.

Definition _score_domain_users (unique_users : Z) : Q :=
  if (unique_users >=? 10)%Z then 100
  else inject_Z unique_users / 10 * 100.

Definition _score_enterprise_seats (seats : Z) : Q :=
  if (seats >=? 100)%Z then 100
  else if (seats >? 0)%Z then Py.min 100 (inject_Z seats / 100 * 100)
  else 0.

Definition _score_cross_channel (n_channels : Z) (marketplace_to_direct : Q)
  : Q :=
  let channel_score := Py.min 100 (inject_Z ((n_channels - 1) * 40)) in
  let channel_score :=
    if marketplace_to_direct >? 3 then Py.min 100 (channel_score + 20)
    else channel_score in
  channel_score.

(** The penalty is accumulated in a local variable, one guarded update
    after the other. *)
Definition _compute_risk_penalty (days_inactive : Z) (growth_rate : Q)
           (n_models : Z) : Q :=
  let penalty := 0 in
  let penalty :=
    if (days_inactive >? 14)%Z then penalty + 4
    else if (days_inactive >? 7)%Z then
      penalty + inject_Z (days_inactive - 7) / 7 * 4
    else penalty in
  let penalty :=
    if growth_rate <? 0 then penalty + Py.min 4 (Qabs growth_rate * 20)
    else penalty in
  let penalty :=
    if (n_models <=? 1)%Z then penalty + 2 else penalty in
  Py.min 10 penalty.

(** [row.get("computed_growth_rate", row.get("growth_rate", 0))] *)
Definition row_growth (row : Row) : Q :=
  match computed_growth_rate row with
  | Some g => g
  | None => match growth_rate row with Some g => g | None => 0 end
  end.

(** [row.get("n_active_channels", row.get("n_channels", 1))] *)
Definition row_channels (row : Row) : Z :=
  match n_active_channels row with
  | Some n => n
  | None => match n_channels row with Some n => n | None => 1%Z end
  end.

(** The [for threshold, stage_name in STAGE_THRESHOLDS] loop with its
    [break]: the first threshold reached decides; the value assigned before
    the loop stays when none is. *)
Fixpoint first_stage (thresholds : list (Q * string)) (total_score : Q)
         (default : string) : string :=
  match thresholds with
  | [] => default
  | (threshold, stage_name) :: rest =>
      if total_score >=? threshold then stage_name
      else first_stage rest total_score default
  end.

Definition assign_stage (total_score : Q) : string :=
  first_stage STAGE_THRESHOLDS total_score "At Risk".

Section WithLog10.

Variable log10 : Q -> Q.

Definition _normalize_spend_log (spend : Q) (max_spend : Q) : Q :=
  if spend <=? 0 then 0
  else
    let log_val := log10 (Py.max spend 1) in
    let log_max := log10 max_spend in
    let log_min := log10 500 in
    Py.min 100 (Py.max 0 ((log_val - log_min) / (log_max - log_min) * 100)).

Definition _score_daily_requests (daily_requests : Z) : Q :=
  if (daily_requests <=? 0)%Z then 0
  else
    let log_val := log10 (inject_Z (Z.max daily_requests 1)) in
    Py.min 100 (Py.max 0 (log_val / log10 100000 * 100)).

(** The local variables of [score_account], in the order of the source. *)
Definition usage_intensity (row : Row) : Q :=
  let spend_score := _normalize_spend_log (latest_total_spend row) 80000 in
  let growth_score := _score_growth (row_growth row) in
  let request_score := _score_daily_requests (daily_requests row) in
  spend_score * 0.4 + growth_score * 0.4 + request_score * 0.2.

Definition production_maturity (row : Row) : Q :=
  let prod_score := _score_prod_ratio (prod_ratio row) in
  let error_score := _score_error_rate (error_rate row) in
  let model_score := _score_model_diversity (n_models row) in
  prod_score * 0.4 + error_score * 0.3 + model_score * 0.3.

Definition team_adoption (row : Row) : Q :=
  let users_score := _score_domain_users (unique_users row) in
  let seats_score := _score_enterprise_seats (enterprise_seats row) in
  users_score * 0.6 + seats_score * 0.4.

Definition cross_channel (row : Row) : Q :=
  _score_cross_channel (row_channels row) (marketplace_to_direct row).

Definition row_risk_penalty (row : Row) : Q :=
  _compute_risk_penalty (days_inactive row) (row_growth row) (n_models row).

Definition raw_score (row : Row) : Q :=
  usage_intensity row * 0.30
  + production_maturity row * 0.25
  + team_adoption row * 0.20
  + cross_channel row * 0.15.

Definition total_score (row : Row) : Q :=
  Py.max 0 (Py.min 100 (raw_score row - row_risk_penalty row)).

Definition score_account (row : Row) : Scores :=
  {| conversion_score := Py.round (total_score row) 1;
     stage := assign_stage (total_score row);
     usage_intensity_score := Py.round (usage_intensity row) 1;
     production_maturity_score := Py.round (production_maturity row) 1;
     team_adoption_score := Py.round (team_adoption row) 1;
     cross_channel_score := Py.round (cross_channel row) 1;
     risk_penalty := Py.round (row_risk_penalty row) 1 |}.

End WithLog10.

Definition get_recommended_action (row : ScoredRow) : string :=
  let st := stage (scores row) in
  if st =? "Enterprise Ready" then
    "Route to AE for enterprise contract discussion"
  else if st =? "High Velocity" then
    if (enterprise_seats (base row) =? 0)%Z then
      "Introduce Claude for Enterprise; schedule product demo"
    else "Monitor for trigger event; prepare custom pricing proposal"
  else if st =? "Qualified" then
    if (n_models (base row) <=? 1)%Z then
      "Share multi-model use case guide; suggest Sonnet for cost optimization"
    else if prod_ratio (base row) <? 0.6 then
      "Offer production deployment support; share best practices"
    else "Assign SDR for discovery call; share enterprise case studies"
  else if st =? "Nurture" then
    if row_growth (base row) <? 0 then
      "Trigger re-engagement campaign; offer office hours"
    else "Add to nurture sequence; share relevant content"
  else
    if (days_inactive (base row) >? 14)%Z then
      "CSM outreach: check-in call to understand blockers"
    else "CSM intervention: identify churn risk factors".

(** ** The explanation of the action *)

(** [f"{n}"] for an integer. *)
Definition format_int (n : Z) : string := NilZero.string_of_int (Z.to_int n).

(** [f"{x:.0f}"]: the nearest integer, ties to even, the sign of a negative
    number kept when it rounds to zero. *)
Definition format_f0 (x : Q) : string :=
  let r := Py.round_half_even x in
  if (x <? 0) && (r =? 0)%Z then "-0" else format_int r.

(** [f"{x:+.0%}"]: the percentage with no decimals and an explicit sign. *)
Definition format_signed_percent (x : Q) : string :=
  let r := Py.round_half_even (x * 100) in
  (if x <? 0 then "-" else "+") ++ format_int (Z.abs r) ++ "%".

(** The [categories] dictionary, in insertion order. *)
Definition categories (row : ScoredRow) : list (string * Q) :=
  [ ("Usage Intensity", usage_intensity_score (scores row));
    ("Production Maturity", production_maturity_score (scores row));
    ("Team Adoption", team_adoption_score (scores row));
    ("Cross-Channel", cross_channel_score (scores row)) ].

(** The loop of the builtin [max(d, key=d.get)]: a later key replaces the
    current one only when its value is strictly greater. *)
Fixpoint max_from (best : string * Q) (items : list (string * Q))
  : string * Q :=
  match items with
  | [] => best
  | item :: rest => max_from (if snd item >? snd best then item else best) rest
  end.

(** The loop of [min(d, key=d.get)]: strictly smaller replaces. *)
Fixpoint min_from (best : string * Q) (items : list (string * Q))
  : string * Q :=
  match items with
  | [] => best
  | item :: rest => min_from (if snd item <? snd best then item else best) rest
  end.

(** [max] and [min] of a dictionary by value; [None] is the [ValueError] of
    an empty one. *)
Definition max_by_value (d : list (string * Q)) : option (string * Q) :=
  match d with
  | [] => None
  | first :: rest => Some (max_from first rest)
  end.

Definition min_by_value (d : list (string * Q)) : option (string * Q) :=
  match d with
  | [] => None
  | first :: rest => Some (min_from first rest)
  end.

(** The strongest and the weakest category with their scores. *)
Definition strongest (row : ScoredRow) : string * Q :=
  match max_by_value (categories row) with
  | Some item => item
  | None => ("", 0)
  end.

Definition weakest (row : ScoredRow) : string * Q :=
  match min_by_value (categories row) with
  | Some item => item
  | None => ("", 0)
  end.

(** The [parts] list of [get_action_explanation] when it is joined. *)
Definition explanation_parts (row : ScoredRow) : list string :=
  let st := stage (scores row) in
  let strong := strongest row in
  let weak := weakest row in
  if st =? "Enterprise Ready" then
    [ "Strong across all dimensions (strongest: " ++ fst strong ++ " at "
        ++ format_f0 (snd strong) ++ "/100).";
      "High spend, multi-channel presence, and strong team adoption signal enterprise buying intent." ]
  else if st =? "High Velocity" then
    [ "Strongest signal: " ++ fst strong ++ " (" ++ format_f0 (snd strong)
        ++ "/100).";
      if snd weak <? 50 then
        "Opportunity: " ++ fst weak ++ " is at " ++ format_f0 (snd weak)
          ++ "/100 — addressing this could accelerate conversion."
      else "Approaching enterprise threshold across multiple dimensions." ]
  else if st =? "Qualified" then
    [ fst strong ++ " leads at " ++ format_f0 (snd strong) ++ "/100.";
      "Focus on improving " ++ fst weak ++ " (" ++ format_f0 (snd weak)
        ++ "/100) to move this account up-funnel." ]
  else if st =? "Nurture" then
    let growth := row_growth (base row) in
    [ if growth >? 0 then
        "Positive growth trajectory (" ++ format_signed_percent growth
          ++ ") but early-stage across most signals."
      else
        "Flat or declining usage (" ++ format_signed_percent growth
          ++ "). Needs re-engagement to prevent churn.";
      "Best signal: " ++ fst strong ++ " at " ++ format_f0 (snd strong)
        ++ "/100." ]
  else
    (if (days_inactive (base row) >? 7)%Z then
       [ "Inactive for " ++ format_int (days_inactive (base row))
           ++ " days — potential churn risk." ]
     else [])
    ++ (if row_growth (base row) <? - 0.1 then
          [ "Usage is declining significantly." ]
        else [])
    ++ [ "All scoring categories are below threshold (best: " ++ fst strong
           ++ " at " ++ format_f0 (snd strong) ++ "/100)." ].

Definition get_action_explanation (row : ScoredRow) : string :=
  String.concat " " (explanation_parts row).

End Scoring.

(* ------------------------------------------------------------------ *)
(** * Floats that may be non-finite *)

(** The values a float computation of pandas or of Python can hold once a
    division by zero has happened: a finite number, an infinity, or NaN. *)
Inductive pyfloat : Type :=
| Fin (q : Q)
| PInf
| NInf
| NaN.

Module PyFloat.

Definition isnan (a : pyfloat) : bool :=
  match a with NaN => true | _ => false end.

Definition neg (a : pyfloat) : pyfloat :=
  match a with
  | Fin q => Fin (- q)
  | PInf => NInf
  | NInf => PInf
  | NaN => NaN
  end.

(** An infinity with the sign of [q], NaN when [q] is zero. *)
Definition signed_inf (q : Q) : pyfloat :=
  match Qcompare q 0 with
  | Gt => PInf
  | Lt => NInf
  | Eq => NaN
  end.

Definition add (a b : pyfloat) : pyfloat :=
  match a, b with
  | NaN, _ | _, NaN => NaN
  | Fin p, Fin q => Fin (p + q)
  | PInf, NInf | NInf, PInf => NaN
  | PInf, _ | _, PInf => PInf
  | NInf, _ | _, NInf => NInf
  end.

Definition sub (a b : pyfloat) : pyfloat := add a (neg b).

Definition mul (a b : pyfloat) : pyfloat :=
  match a, b with
  | NaN, _ | _, NaN => NaN
  | Fin p, Fin q => Fin (p * q)
  | PInf, Fin q | Fin q, PInf => signed_inf q
  | NInf, Fin q | Fin q, NInf => signed_inf (- q)
  | PInf, PInf | NInf, NInf => PInf
  | PInf, NInf | NInf, PInf => NInf
  end.

(** Float division as numpy does it: no exception, a zero divisor gives
    an infinity with the sign of the dividend, and [0/0] is NaN. *)
Definition div (a b : pyfloat) : pyfloat :=
  match a, b with
  | NaN, _ | _, NaN => NaN
  | Fin p, Fin q => if Qeq_bool q 0 then signed_inf p else Fin (p / q)
  | Fin _, (PInf | NInf) => Fin 0
  | PInf, Fin q => if Py.ltb q 0 then NInf else PInf
  | NInf, Fin q => if Py.ltb q 0 then PInf else NInf
  | (PInf | NInf), (PInf | NInf) => NaN
  end.

(** [x ** n] for a non-negative integer exponent. *)
Fixpoint pow (a : pyfloat) (n : nat) : pyfloat :=
  match n with
  | O => Fin 1
  | S n' => mul a (pow a n')
  end.

(** [round(x, ndigits)]: infinities and NaN round to themselves. *)
Definition round (a : pyfloat) (ndigits : nat) : pyfloat :=
  match a with
  | Fin q => Fin (Py.round q ndigits)
  | _ => a
  end.

(** Equality of float values, finite ones compared as rationals. *)
Definition eq (a b : pyfloat) : Prop :=
  match a, b with
  | Fin p, Fin q => p == q
  | PInf, PInf | NInf, NInf | NaN, NaN => True
  | _, _ => False
  end.

(** A float that is the finite number [q]. *)
Definition is_finite (a : pyfloat) (q : Q) : Prop := eq a (Fin q).

End PyFloat.

(* ------------------------------------------------------------------ *)
(** * The pandas operations used by analytics/signals.py *)

Module Pandas.

(** [Series.tail(n)] *)
Definition tail {A : Type} (n : nat) (l : list A) : list A :=
  skipn (List.length l - n) l.

(** [s / s.shift(1) - 1], element by element after the first: the change
    from each value to the next. *)
Fixpoint changes_from (prev : Q) (l : list Q) : list pyfloat :=
  match l with
  | [] => []
  | cur :: rest =>
      PyFloat.sub (PyFloat.div (Fin cur) (Fin prev)) (Fin 1)
      :: changes_from cur rest
  end.

(** [Series.pct_change()]: the first element has no predecessor and is NaN. *)
Definition pct_change (l : list Q) : list pyfloat :=
  match l with
  | [] => []
  | first :: rest => NaN :: changes_from first rest
  end.

(** [Series.dropna()]: NaN is dropped, an infinity is kept. *)
Definition dropna (l : list pyfloat) : list pyfloat :=
  filter (fun a => negb (PyFloat.isnan a)) l.

Definition sum (l : list pyfloat) : pyfloat :=
  fold_left PyFloat.add l (Fin 0).

(** [Series.mean()] of a series without NaN. *)
Definition mean (l : list pyfloat) : pyfloat :=
  PyFloat.div (sum l) (Fin (inject_Z (Z.of_nat (List.length l)))).

(** One step of [groupby(key).sum().sort_index()]: the groups are kept
    ordered by key, a row joins the group of its key or opens it. *)
Fixpoint add_to_group (key : Z) (value : Q) (groups : list (Z * Q))
  : list (Z * Q) :=
  match groups with
  | [] => [(key, value)]
  | (k, total) :: rest =>
      if (key <? k)%Z then (key, value) :: groups
      else if (key =? k)%Z then (k, total + value) :: rest
      else (k, total) :: add_to_group key value rest
  end.

Definition groupby_sum (rows : list (Z * Q)) : list (Z * Q) :=
  fold_left (fun groups r => add_to_group (fst r) (snd r) groups) rows [].

(** The index of a grouped series, and the sum of its values. *)
Definition keys (groups : list (Z * Q)) : list Z := map fst groups.

Definition grand_total (rows : list (Z * Q)) : Q :=
  fold_right Qplus 0 (map snd rows).

(** [left.merge(right, on=key, how="left")]: every left row, in order, with
    each right row of the same key in the order of [right]; a left row
    without a match is kept once, the right columns missing. *)
Definition merge_left_on {A B : Type} (key_left : A -> string)
           (key_right : B -> string) (left : list A) (right : list B)
  : list (A * option B) :=
  flat_map
    (fun a =>
       match filter (fun b => String.eqb (key_right b) (key_left a)) right with
       | [] => [(a, None)]
       | matches => map (fun b => (a, Some b)) matches
       end)
    left.

(** What a call on frames gives back: the frame it returns, or the
    [KeyError] raised for a column that a frame does not have. *)
Inductive outcome (A : Type) : Type :=
| Returned (value : A)
| KeyError (column : string).

Arguments Returned {A} value.
Arguments KeyError {A} column.

End Pandas.

(* ------------------------------------------------------------------ *)
(** * analytics/signals.py *)

Module Signals.

Local Open Scope string_scope.
Local Open Scope Q_scope.

(** A row of [monthly_usage_df]. *)
Record UsageRow := {
  usage_account_id : string;
  month_idx : Z;
  spend : Q
}.

(** A row of [accounts_df], with the columns the signal functions read. *)
Record AccountRecord := {
  account_id : string;
  latest_direct_spend : Q;
  latest_bedrock_spend : Q;
  latest_vertex_spend : Q;
  latest_seat_spend : Q;
  latest_total_spend : Q;
  growth_rate : Q
}.

(** The dictionary returned by [compute_cross_channel_spend]. *)
Record ChannelSpend := {
  direct : Q;
  bedrock : Q;
  vertex : Q;
  seats : Q;
  total : Q
}.

(** One entry of the [signals] list of [compute_all_signals]. *)
Record Signal := {
  signal_account_id : string;
  computed_growth_rate : pyfloat;
  n_active_channels : Z;
  channel_direct : Q;
  channel_bedrock : Q;
  channel_vertex : Q;
  channel_seats : Q
}.

(** A row of the merged frame: the account columns and, when a signal row
    with the same identifier exists, the signal columns. *)
Record Enriched := {
  account : AccountRecord;
  signal : option Signal
}.

Definition monthly_totals (account_data : list UsageRow) : list (Z * Q) :=
  Pandas.groupby_sum (map (fun r => (month_idx r, spend r)) account_data).

(** The chronological bucket totals of one account: the values of
    [monthly_totals] for the rows of [aid]. *)
Definition account_totals (monthly_usage_df : list UsageRow) (aid : string)
  : list Q :=
  map snd
      (monthly_totals
         (filter (fun r => usage_account_id r =? aid) monthly_usage_df)).

Definition annualize (avg_mom : pyfloat) : pyfloat :=
  PyFloat.sub (PyFloat.pow (PyFloat.add (Fin 1) avg_mom) 12) (Fin 1).

Definition compute_growth_rate (monthly_usage_df : list UsageRow)
           (aid : string) : pyfloat :=
  let account_data :=
    filter (fun r => usage_account_id r =? aid) monthly_usage_df in
  match account_data with
  | [] => Fin 0
  | _ =>
      let totals := map snd (monthly_totals account_data) in
      if (List.length totals <? 2)%nat then Fin 0
      else
        let recent := Pandas.tail 4 totals in
        let growth_rates := Pandas.dropna (Pandas.pct_change recent) in
        match growth_rates with
        | [] => Fin 0
        | _ => annualize (Pandas.mean growth_rates)
        end
  end.

Definition compute_cross_channel_spend (accounts_df : list AccountRecord)
           (aid : string) : ChannelSpend :=
  match filter (fun r => account_id r =? aid) accounts_df with
  | [] => {| direct := 0; bedrock := 0; vertex := 0; seats := 0; total := 0 |}
  | r :: _ =>
      {| direct := latest_direct_spend r;
         bedrock := latest_bedrock_spend r;
         vertex := latest_vertex_spend r;
         seats := latest_seat_spend r;
         total := latest_total_spend r |}
  end.

(** [sum([...])] over a list of booleans. *)
Definition count_true (flags : list bool) : Z :=
  fold_left (fun acc (b : bool) => (acc + if b then 1 else 0)%Z) flags 0%Z.

Definition active_channels (channel_spend : ChannelSpend) : Z :=
  count_true [ direct channel_spend >? 0;
               bedrock channel_spend >? 0;
               vertex channel_spend >? 0;
               seats channel_spend >? 0 ].

Definition blended_growth (stored_growth : Q) (growth : pyfloat) : pyfloat :=
  PyFloat.add (PyFloat.mul (Fin stored_growth) (Fin 0.7))
              (PyFloat.mul growth (Fin 0.3)).

(** The body of the loop of [compute_all_signals]. *)
Definition signal_of (accounts_df : list AccountRecord)
           (monthly_usage_df : list UsageRow) (row : AccountRecord) : Signal :=
  let aid := account_id row in
  let growth := compute_growth_rate monthly_usage_df aid in
  let channel_spend := compute_cross_channel_spend accounts_df aid in
  let stored_growth := growth_rate row in
  {| signal_account_id := aid;
     computed_growth_rate :=
       PyFloat.round (blended_growth stored_growth growth) 4;
     n_active_channels := active_channels channel_spend;
     channel_direct := direct channel_spend;
     channel_bedrock := bedrock channel_spend;
     channel_vertex := vertex channel_spend;
     channel_seats := seats channel_spend |}.

(** [accounts_df.merge(signals_df, on="account_id", how="left")]: every
    account row, in order, joined with each signal row of its identifier. *)
Definition merge_left (accounts_df : list AccountRecord)
           (signals_df : list Signal) : list Enriched :=
  flat_map
    (fun a =>
       match filter (fun s => signal_account_id s =? account_id a)
                    signals_df with
       | [] => [ {| account := a; signal := None |} ]
       | matches =>
           map (fun s => {| account := a; signal := Some s |}) matches
       end)
    accounts_df.

(** [pd.DataFrame(signals)] of an empty list has no column at all, and the
    merge on "account_id" then raises [KeyError]. *)
Definition compute_all_signals (accounts_df : list AccountRecord)
           (monthly_usage_df : list UsageRow)
  : Pandas.outcome (list Enriched) :=
  let signals := map (signal_of accounts_df monthly_usage_df) accounts_df in
  match signals with
  | [] => Pandas.KeyError "account_id"
  | _ => Pandas.Returned (merge_left accounts_df signals)
  end.

(** The behavioural columns of [accounts_df] that the single-signal helpers
    read. *)
Record BehaviorRow := {
  behavior_account_id : string;
  prod_ratio : Q;
  n_models : Z;
  unique_users : Z;
  days_inactive : Z
}.

(** [row = accounts_df[accounts_df["account_id"] == account_id]] *)
Definition rows_of (accounts_df : list BehaviorRow) (aid : string)
  : list BehaviorRow :=
  filter (fun r => behavior_account_id r =? aid) accounts_df.

Definition compute_production_ratio (accounts_df : list BehaviorRow)
           (aid : string) : Q :=
  match rows_of accounts_df aid with
  | [] => 0
  | r :: _ => prod_ratio r
  end.

Definition compute_model_diversity (accounts_df : list BehaviorRow)
           (aid : string) : Z :=
  match rows_of accounts_df aid with
  | [] => 0%Z
  | r :: _ => n_models r
  end.

Definition compute_domain_users (accounts_df : list BehaviorRow)
           (aid : string) : Z :=
  match rows_of accounts_df aid with
  | [] => 0%Z
  | r :: _ => unique_users r
  end.

Definition compute_days_inactive (accounts_df : list BehaviorRow)
           (aid : string) : Z :=
  match rows_of accounts_df aid with
  | [] => 999%Z
  | r :: _ => days_inactive r
  end.

End Signals.

(* ------------------------------------------------------------------ *)
(** * analytics/scoring.py: scoring a whole frame *)

Module Batch.

(** A row of [enriched_df]: the account identifier and the columns read by
    [score_account]. *)
Definition IdRow : Type := (string * Scoring.Row)%type.

(** A row of [scores_df]: the scores with the identifier added to them. *)
Definition ScoreRecord : Type := (string * Scoring.Scores)%type.

Section WithLog10.

Variable log10 : Q -> Q.

Definition score_records (enriched_df : list IdRow) : list ScoreRecord :=
  map (fun row => (fst row, Scoring.score_account log10 (snd row)))
      enriched_df.

(** [pd.DataFrame(score_records)] of an empty list has no column at all,
    and the merge on "account_id" then raises [KeyError]. *)
Definition score_all_accounts (enriched_df : list IdRow)
  : Pandas.outcome (list (IdRow * option ScoreRecord)) :=
  match score_records enriched_df with
  | [] => Pandas.KeyError "account_id"%string
  | scores =>
      Pandas.Returned (Pandas.merge_left_on fst fst enriched_df scores)
  end.

End WithLog10.

End Batch.

(* ------------------------------------------------------------------ *)
(** * data/generator.py: the marketplace-to-direct ratio *)

Module Generator.

(** The conditional expression of [generate_accounts] that fills the
    [marketplace_to_direct] column.  The division is Python's and is
    fallible: [None] stands for a raised [ZeroDivisionError]. *)
Definition py_div (a b : Q) : option Q :=
  if Qeq_bool b 0 then None else Some (a / b).

Definition marketplace_to_direct (marketplace_spend direct_spend : Q)
  : option Q :=
  if direct_spend >? 0 then
    match py_div marketplace_spend direct_spend with
    | Some ratio => Some (Py.round ratio 2)
    | None => None
    end
  else Some 99.0.

End Generator.

(* ------------------------------------------------------------------ *)
(** * components/styles.py: score and signal helpers *)

Module Styles.

Local Open Scope string_scope.
Local Open Scope Q_scope.

Definition STAGE_COLORS : list (string * string) :=
  [ ("Enterprise Ready", "#059669");
    ("High Velocity", "#2563EB");
    ("Qualified", "#D97706");
    ("Nurture", "#64748B");
    ("At Risk", "#DC2626") ].

(** [d.get(key, default)] *)
Fixpoint dict_get {V : Type} (d : list (string * V)) (key : string)
         (default : V) : V :=
  match d with
  | [] => default
  | (k, v) :: rest => if k =? key then v else dict_get rest key default
  end.

(** The text colour chosen by [stage_tag]. *)
Definition stage_tag_color (stage : string) : string :=
  dict_get STAGE_COLORS stage "#64748B".

Definition get_score_color (score : Q) : string :=
  if score >=? 78 then "#059669"
  else if score >=? 63 then "#2563EB"
  else if score >=? 48 then "#D97706"
  else "#DC2626".

(** One entry of a rule list: threshold, colour, label. *)
Definition Rule : Type := (Q * string * string)%type.

Definition rules : list (string * list Rule) :=
  [ ("growth_rate",
     [ (0.20, "#059669", "Strong growth");
       (0.05, "#D97706", "Moderate");
       (- 999, "#DC2626", "Declining") ]);
    ("prod_ratio",
     [ (0.80, "#059669", "Healthy");
       (0.50, "#D97706", "Developing");
       (0, "#DC2626", "Low maturity") ]);
    ("error_rate_inv",
     [ (0.04, "#DC2626", "High errors");
       (0.02, "#059669", "Healthy range");
       (0.005, "#059669", "Healthy range");
       (0, "#D97706", "Very low volume") ]);
    ("models",
     [ (3, "#059669", "Diverse");
       (2, "#D97706", "Moderate");
       (0, "#DC2626", "Single model") ]);
    ("days_inactive",
     [ (8, "#DC2626", "Needs attention");
       (3, "#D97706", "Monitor");
       (0, "#059669", "Active") ]);
    ("unique_users",
     [ (10, "#059669", "Strong adoption");
       (5, "#D97706", "Growing");
       (0, "#DC2626", "Limited") ]);
    ("daily_requests",
     [ (10000, "#059669", "High volume");
       (1000, "#D97706", "Moderate");
       (0, "#DC2626", "Low volume") ]);
    ("channels",
     [ (3, "#059669", "Multi-channel");
       (2, "#D97706", "Dual-channel");
       (0, "#DC2626", "Single-channel") ]) ].

(** The [for threshold, color, label in ...] loop with its [return]: the
    first threshold reached decides; [None] is the loop running out. *)
Fixpoint first_rule (rule_list : list Rule) (value : Q)
  : option (string * string) :=
  match rule_list with
  | [] => None
  | (threshold, color, label) :: rest =>
      if value >=? threshold then Some (color, label)
      else first_rule rest value
  end.

(** [metric in rules] together with [rules[metric]]. *)
Fixpoint rules_lookup (d : list (string * list Rule)) (metric : string)
  : option (list Rule) :=
  match d with
  | [] => None
  | (k, v) :: rest => if k =? metric then Some v else rules_lookup rest metric
  end.

Definition get_signal_health (metric : string) (value : Q)
  : string * string :=
  let fallthrough := ("#94A3B8", "") in
  let table := rules_lookup rules metric in
  let matched :=
    match table with
    | Some rule_list => first_rule rule_list value
    | None => None
    end in
  if metric =? "error_rate_inv" then
    match matched with Some r => r | None => fallthrough end
  else if metric =? "days_inactive" then
    match matched with Some r => r | None => ("#059669", "Active") end
  else
    match matched with Some r => r | None => fallthrough end.

End Styles.

(* ------------------------------------------------------------------ *)
(** * The documented formulas, written from the specification's words *)

Module Spec.

Local Open Scope Q_scope.

Definition clamp (x lo hi : Q) : Q := Qmax lo (Qmin hi x).

(** Category aggregation and composite of the specification. *)
Definition UsageIntensity (spend_score growth_score request_score : Q) : Q :=
  spend_score * 0.4 + growth_score * 0.4 + request_score * 0.2.

Definition ProductionMaturity (prod_score error_score model_score : Q) : Q :=
  prod_score * 0.4 + error_score * 0.3 + model_score * 0.3.

Definition TeamAdoption (users_score seats_score : Q) : Q :=
  users_score * 0.6 + seats_score * 0.4.

Definition composite (usage production team cross risk_penalty : Q) : Q :=
  clamp (0.30 * usage + 0.25 * production + 0.20 * team + 0.15 * cross
         - risk_penalty) 0 100.

(** The four terms of the risk penalty. *)
Definition inactivity_term (days_inactive : Z) : Q :=
  if Z_lt_dec 14 days_inactive then 4.0
  else if Z_lt_dec 7 days_inactive then
    inject_Z (days_inactive - 7) / 7 * 4.0
  else 0.

Definition decline_term (growth_rate : Q) : Q :=
  if Qlt_le_dec growth_rate 0 then Qmin 4.0 (Qabs growth_rate * 20) else 0.

Definition single_model_term (n_models : Z) : Q :=
  if Z_le_dec n_models 1 then 2.0 else 0.

Definition risk_penalty (days_inactive : Z) (growth_rate : Q) (n_models : Z)
  : Q :=
  clamp (inactivity_term days_inactive + decline_term growth_rate
         + single_model_term n_models) 0 10.

(** A bucket total over which a percentage change is defined. *)
Definition nonzero (q : Q) : Prop := ~ q == 0.

(** Period-over-period percentage change of each consecutive pair. *)
Fixpoint period_changes (buckets : list Q) : list Q :=
  match buckets with
  | prev :: (cur :: _) as rest => (cur - prev) / prev :: period_changes rest
  | _ => []
  end.

Definition average (l : list Q) : Q :=
  fold_right Qplus 0 l / inject_Z (Z.of_nat (List.length l)).

Definition annualized (avg_monthly_rate : Q) : Q :=
  (1 + avg_monthly_rate) ^ 12 - 1.

(** The last [n] elements of a list. *)
Definition last_n {A : Type} (n : nat) (l : list A) : list A :=
  rev (firstn n (rev l)).

(** The place of a stage in the funnel, "At Risk" lowest; 0 also for a name
    that is no stage. *)
Definition stage_rank (stage : string) : nat :=
  if String.eqb stage "Enterprise Ready" then 4
  else if String.eqb stage "High Velocity" then 3
  else if String.eqb stage "Qualified" then 2
  else if String.eqb stage "Nurture" then 1
  else 0.

(** A float that is a number or plus infinity: neither NaN nor minus
    infinity. *)
Definition finite_or_pinf (a : pyfloat) : Prop :=
  match a with
  | Fin _ | PInf => True
  | NInf | NaN => False
  end.

(** The spends of an account as a [ChannelSpend] dictionary. *)
Definition own_spend (r : Signals.AccountRecord) : Signals.ChannelSpend :=
  {| Signals.direct := Signals.latest_direct_spend r;
     Signals.bedrock := Signals.latest_bedrock_spend r;
     Signals.vertex := Signals.latest_vertex_spend r;
     Signals.seats := Signals.latest_seat_spend r;
     Signals.total := Signals.latest_total_spend r |}.

(** [r] is [x] rounded to [n] decimals: a multiple of 10^-n that is nearest
    to [x], the even multiple when two multiples are equally near. *)
Definition rounded_to (n : nat) (x r : Q) : Prop :=
  let unit := 1 / inject_Z (10 ^ Z.of_nat n) in
  exists k : Z,
    r == inject_Z k * unit
    /\ x - unit / 2 <= r
    /\ r <= x + unit / 2
    /\ (r - x == unit / 2 \/ x - r == unit / 2 -> Z.even k = true).

(** [computed] is the blend of the stored and the derived growth rate,
    0.7 of the one plus 0.3 of the other, rounded to 4 decimals; a derived
    rate that is no finite number makes the blend that same value. *)
Definition blend_of (stored : Q) (derived computed : pyfloat) : Prop :=
  match derived with
  | Fin d => exists r : Q,
      computed = Fin r /\ rounded_to 4 (0.7 * stored + 0.3 * d) r
  | _ => computed = derived
  end.

(** The self-join of a frame on the identifier: every row, in order, paired
    with each row of the same identifier after [f] has been applied to it. *)
Definition self_join {A B : Type} (key : A -> string) (f : A -> B)
           (rows : list A) : list (A * option B) :=
  flat_map
    (fun row =>
       map (fun other => (row, Some (f other)))
           (filter (fun other => String.eqb (key other) (key row)) rows))
    rows.


End Spec.

(* ------------------------------------------------------------------ *)
(** * Concrete inputs *)

Module Sample.

Local Open Scope string_scope.
Local Open Scope Q_scope.

(** A rational stand-in for [np.log10], used to run the scoring functions
    on concrete rows: exact at the powers of ten and linear between two
    consecutive ones. *)
Fixpoint decimal_exponent (fuel : nat) (n : Z) : Z :=
  match fuel with
  | O => 0%Z
  | S fuel' =>
      if (n <? 10)%Z then 0%Z
      else (1 + decimal_exponent fuel' (n / 10))%Z
  end.

Definition log10_interp (x : Q) : Q :=
  let n := Qfloor x in
  let k := decimal_exponent (S (Z.to_nat (Z.log2 n))) n in
  inject_Z k + (x / inject_Z (10 ^ k) - 1) / 9.

(** Every category at its maximum and nothing to penalise. *)
Definition saturated_row : Scoring.Row :=
  {| Scoring.latest_total_spend := 80000;
     Scoring.computed_growth_rate := Some 0.5;
     Scoring.growth_rate := Some 0.5;
     Scoring.daily_requests := 100000;
     Scoring.prod_ratio := 0.95;
     Scoring.error_rate := 0.01;
     Scoring.n_models := 3;
     Scoring.unique_users := 10;
     Scoring.enterprise_seats := 100;
     Scoring.n_active_channels := Some 4%Z;
     Scoring.n_channels := Some 4%Z;
     Scoring.marketplace_to_direct := 1.2;
     Scoring.days_inactive := 0 |}.

(** Every category at zero and the largest penalty. *)
Definition dormant_row : Scoring.Row :=
  {| Scoring.latest_total_spend := 0;
     Scoring.computed_growth_rate := Some (-0.5);
     Scoring.growth_rate := Some (-0.5);
     Scoring.daily_requests := 0;
     Scoring.prod_ratio := 0;
     Scoring.error_rate := 0.1;
     Scoring.n_models := 0;
     Scoring.unique_users := 0;
     Scoring.enterprise_seats := 0;
     Scoring.n_active_channels := Some 1%Z;
     Scoring.n_channels := Some 1%Z;
     Scoring.marketplace_to_direct := 0;
     Scoring.days_inactive := 30 |}.

(** A row whose unrounded composite, 77.97, lies just under the highest
    threshold. *)
Definition borderline_row : Scoring.Row :=
  {| Scoring.latest_total_spend := 80000;
     Scoring.computed_growth_rate := Some 0.5;
     Scoring.growth_rate := Some 0.5;
     Scoring.daily_requests := 100000;
     Scoring.prod_ratio := 0.388;
     Scoring.error_rate := 0.01;
     Scoring.n_models := 3;
     Scoring.unique_users := 10;
     Scoring.enterprise_seats := 100;
     Scoring.n_active_channels := Some 3%Z;
     Scoring.n_channels := Some 3%Z;
     Scoring.marketplace_to_direct := 1.0;
     Scoring.days_inactive := 0 |}.

(** An account whose four channel spends are all zero. *)
Definition idle_account : Signals.AccountRecord :=
  {| Signals.account_id := "ACC-1001";
     Signals.latest_direct_spend := 0;
     Signals.latest_bedrock_spend := 0;
     Signals.latest_vertex_spend := 0;
     Signals.latest_seat_spend := 0;
     Signals.latest_total_spend := 0;
     Signals.growth_rate := 0.10 |}.

(** An account with spend on two channels. *)
Definition growing_account : Signals.AccountRecord :=
  {| Signals.account_id := "ACC-1002";
     Signals.latest_direct_spend := 100;
     Signals.latest_bedrock_spend := 33.1;
     Signals.latest_vertex_spend := 0;
     Signals.latest_seat_spend := 0;
     Signals.latest_total_spend := 133.1;
     Signals.growth_rate := 0.10 |}.

Definition usage (aid : string) (month : Z) (amount : Q) : Signals.UsageRow :=
  {| Signals.usage_account_id := aid;
     Signals.month_idx := month;
     Signals.spend := amount |}.

(** A history whose first bucket has no spend. *)
Definition restart_history : list Signals.UsageRow :=
  [ usage "ACC-1001" 0 0; usage "ACC-1001" 1 100 ].

(** A history of four growing months, given out of order and with one
    month split over two channels. *)
Definition growing_history : list Signals.UsageRow :=
  [ usage "ACC-1002" 2 121;
    usage "ACC-1002" 0 60;
    usage "ACC-1001" 0 75;
    usage "ACC-1002" 1 110;
    usage "ACC-1002" 0 40;
    usage "ACC-1002" 3 133.1 ].

(** A coarse logarithm, the integer part of the base-2 logarithm: a second
    stand-in for [np.log10], non-decreasing by construction. *)
Definition log2_floor (x : Q) : Q := inject_Z (Z.log2 (Qfloor x)).

(** Two rows of one frame with distinct identifiers. *)
Definition scoring_frame : list (string * Scoring.Row) :=
  [ ("ACC-1001", saturated_row); ("ACC-1002", dormant_row) ].


(** The behavioural columns of two accounts. *)
Definition behavior_frame : list Signals.BehaviorRow :=
  [ {| Signals.behavior_account_id := "ACC-1001";
       Signals.prod_ratio := 0.9;
       Signals.n_models := 3;
       Signals.unique_users := 12;
       Signals.days_inactive := 2 |};
    {| Signals.behavior_account_id := "ACC-1002";
       Signals.prod_ratio := 0.3;
       Signals.n_models := 1;
       Signals.unique_users := 2;
       Signals.days_inactive := 21 |} ].

(** A history whose last month has no spend: 5, 10, 20, 0. *)
Definition stalled_history : list Signals.UsageRow :=
  [ usage "ACC-1003" 0 5; usage "ACC-1003" 1 10;
    usage "ACC-1003" 2 20; usage "ACC-1003" 3 0 ].

(** A frame in which one identifier occurs twice. *)
Definition duplicated_frame : list (string * Scoring.Row) :=
  [ ("ACC-1001", saturated_row); ("ACC-1002", dormant_row);
    ("ACC-1001", borderline_row) ].

End Sample.

(* ------------------------------------------------------------------ *)
(** * Facts about the Python numerics *)

Module PyFacts.

Local Open Scope Q_scope.

Lemma leb_true (x y : Q) : (x <=? y) = true <-> x <= y.
Proof. apply Qle_bool_iff. Qed.

Lemma leb_false (x y : Q) : (x <=? y) = false <-> y < x.
Proof.
  unfold Py.leb. split; intro H.
  - apply Qnot_le_lt. intro L. apply Qle_bool_iff in L. congruence.
  - destruct (Qle_bool x y) eqn:E; [|reflexivity].
    apply Qle_bool_iff in E. lra.
Qed.

Lemma geb_true (x y : Q) : (x >=? y) = true <-> y <= x.
Proof. apply leb_true. Qed.

Lemma geb_false (x y : Q) : (x >=? y) = false <-> x < y.
Proof. apply leb_false. Qed.

Lemma ltb_true (x y : Q) : (x <? y) = true <-> x < y.
Proof.
  unfold Py.ltb. rewrite negb_true_iff. apply (leb_false y x).
Qed.

Lemma ltb_false (x y : Q) : (x <? y) = false <-> y <= x.
Proof.
  unfold Py.ltb. rewrite negb_false_iff. apply (leb_true y x).
Qed.

Lemma gtb_true (x y : Q) : (x >? y) = true <-> y < x.
Proof. apply (ltb_true y x). Qed.

Lemma gtb_false (x y : Q) : (x >? y) = false <-> x <= y.
Proof. apply (ltb_false y x). Qed.

(** [lra] does not read a division: a division by a literal is turned
    into the product with its inverse. *)
Ltac literal_div :=
  unfold Qdiv in *;
  repeat match goal with
  | |- context [Qinv (Qmake ?n ?d)] =>
      let r := eval cbv in (Qinv (Qmake n d)) in
      change (Qinv (Qmake n d)) with r
  | H : context [Qinv (Qmake ?n ?d)] |- _ =>
      let r := eval cbv in (Qinv (Qmake n d)) in
      change (Qinv (Qmake n d)) with r in H
  end.

Ltac q_arith := literal_div; lra.

(** Case analysis on every comparison of the goal, each branch keeping the
    order fact it stands for. *)
Ltac no_branch t :=
  lazymatch t with
  | context [if _ then _ else _] => fail
  | _ => idtac
  end.

Ltac py_case cmp a b on_true on_false :=
  no_branch a; no_branch b;
  let E := fresh "E" in
  destruct (cmp a b) eqn:E; [apply on_true in E | apply on_false in E].

Ltac py_cases :=
  unfold Py.max, Py.min in *;
  repeat match goal with
  | |- context [Py.geb ?a ?b] => py_case Py.geb a b geb_true geb_false
  | |- context [Py.leb ?a ?b] => py_case Py.leb a b leb_true leb_false
  | |- context [Py.gtb ?a ?b] => py_case Py.gtb a b gtb_true gtb_false
  | |- context [Py.ltb ?a ?b] => py_case Py.ltb a b ltb_true ltb_false
  end.

Lemma max_is_Qmax (a b : Q) : Py.max a b == Qmax a b.
Proof.
  destruct (Q.max_spec a b) as [[L ->] | [L ->]]; py_cases; lra.
Qed.

Lemma min_is_Qmin (a b : Q) : Py.min a b == Qmin a b.
Proof.
  destruct (Q.min_spec a b) as [[L ->] | [L ->]]; py_cases; lra.
Qed.

Lemma clamp_range (x lo hi : Q) :
  lo <= hi -> lo <= Spec.clamp x lo hi <= hi.
Proof.
  intro H. unfold Spec.clamp.
  destruct (Q.max_spec lo (Qmin hi x)) as [[L ->] | [L ->]];
    destruct (Q.min_spec hi x) as [[M E] | [M E]]; rewrite ?E in *; lra.
Qed.

(** The nested [max(0, min(100, x))] of the source is the clamp. *)
Lemma max_min_is_clamp (x lo hi : Q) :
  Py.max lo (Py.min hi x) == Spec.clamp x lo hi.
Proof.
  unfold Spec.clamp.
  rewrite max_is_Qmax. apply Q.max_compat; [reflexivity | apply min_is_Qmin].
Qed.

End PyFacts.

(* ------------------------------------------------------------------ *)
(** * Facts about rounding *)

Module RoundFacts.

Local Open Scope Q_scope.


Lemma round_half_even_comp (x y : Q) :
  x == y -> Py.round_half_even x = Py.round_half_even y.
Proof.
  intro E. unfold Py.round_half_even.
  rewrite (Qfloor_comp x y E).
  assert (x - inject_Z (Qfloor y) == y - inject_Z (Qfloor y)) as D
      by (rewrite E; reflexivity).
  rewrite (Qcompare_comp _ _ D (1 # 2) (1 # 2) (Qeq_refl _)).
  reflexivity.
Qed.

Lemma round_comp (x y : Q) (n : nat) : x == y -> Py.round x n = Py.round y n.
Proof.
  intro E. unfold Py.round.
  set (scale := inject_Z (10 ^ Z.of_nat n)).
  rewrite (round_half_even_comp (x * scale) (y * scale)); [reflexivity|].
  rewrite E. reflexivity.
Qed.


Lemma round_half_even_lower (q : Q) (z : Z) :
  inject_Z z <= q -> (z <= Py.round_half_even q)%Z.
Proof.
  intro H. unfold Py.round_half_even.
  assert (z <= Qfloor q)%Z as F.
  { rewrite <- (Qfloor_Z z). apply Qfloor_resp_le. exact H. }
  destruct (Qcompare _ _); [destruct (Z.even _)| |]; lia.
Qed.

Lemma round_half_even_upper (q : Q) (z : Z) :
  q <= inject_Z z -> (Py.round_half_even q <= z)%Z.
Proof.
  intro H. unfold Py.round_half_even.
  pose proof (Qfloor_le q) as Flo.
  destruct (Qeq_dec q (inject_Z z)) as [E | N].
  - rewrite (Qfloor_comp _ _ E), Qfloor_Z.
    assert (q - inject_Z z < 1 # 2) as G by lra.
    rewrite (proj1 (Qlt_alt _ _) G). lia.
  - assert (inject_Z (Qfloor q) < inject_Z z) as L by lra.
    rewrite <- Zlt_Qlt in L.
    destruct (Qcompare _ _); [destruct (Z.even _)| |]; lia.
Qed.

Lemma scale_pos (n : nat) : 0 < inject_Z (10 ^ Z.of_nat n).
Proof.
  change 0 with (inject_Z 0). rewrite <- Zlt_Qlt.
  apply Z.pow_pos_nonneg; lia.
Qed.

(** Rounding to [n] digits never crosses an integer bound. *)
Lemma round_lower (x : Q) (n : nat) (z : Z) :
  inject_Z z <= x -> inject_Z z <= Py.round x n.
Proof.
  intro H. unfold Py.round.
  pose proof (scale_pos n) as P.
  set (k := (10 ^ Z.of_nat n)%Z) in *.
  assert (z * k <= Py.round_half_even (x * inject_Z k))%Z as R.
  { apply round_half_even_lower. rewrite inject_Z_mult. nra. }
  rewrite Zle_Qle, inject_Z_mult in R.
  apply Qle_shift_div_l; [exact P | exact R].
Qed.

Lemma round_upper (x : Q) (n : nat) (z : Z) :
  x <= inject_Z z -> Py.round x n <= inject_Z z.
Proof.
  intro H. unfold Py.round.
  pose proof (scale_pos n) as P.
  set (k := (10 ^ Z.of_nat n)%Z) in *.
  assert (Py.round_half_even (x * inject_Z k) <= z * k)%Z as R.
  { apply round_half_even_upper. rewrite inject_Z_mult. nra. }
  rewrite Zle_Qle, inject_Z_mult in R.
  apply Qle_shift_div_r; [exact P | exact R].
Qed.


(** The nearest integer is within one half, and a tie goes to the even
    neighbour. *)
Lemma round_half_even_nearest (q : Q) :
  q - (1 # 2) <= inject_Z (Py.round_half_even q)
  /\ inject_Z (Py.round_half_even q) <= q + (1 # 2)
  /\ (inject_Z (Py.round_half_even q) - q == 1 # 2
      \/ q - inject_Z (Py.round_half_even q) == 1 # 2 ->
      Z.even (Py.round_half_even q) = true).
Proof.
  unfold Py.round_half_even.
  pose proof (Qfloor_le q) as Lo. pose proof (Qlt_floor q) as Hi.
  rewrite inject_Z_plus in Hi. change (inject_Z 1) with 1 in Hi.
  destruct (Qcompare (q - inject_Z (Qfloor q)) (1 # 2)) eqn:C.
  - apply Qeq_alt in C.
    destruct (Z.even (Qfloor q)) eqn:Even.
    + split; [lra|]. split; [lra|]. intros _. exact Even.
    + rewrite inject_Z_plus. change (inject_Z 1) with 1.
      split; [lra|]. split; [lra|]. intros _.
      replace (Qfloor q + 1)%Z with (Z.succ (Qfloor q)) by lia.
      rewrite Z.even_succ, <- Z.negb_even, Even. reflexivity.
  - apply Qlt_alt in C.
    split; [lra|]. split; [lra|]. intros [T | T]; exfalso; lra.
  - apply Qgt_alt in C. rewrite inject_Z_plus. change (inject_Z 1) with 1.
    split; [lra|]. split; [lra|]. intros [T | T]; exfalso; lra.
Qed.

(** [round(x, n)] is [x] rounded to [n] decimals. *)
Lemma round_is_rounded_to (x : Q) (n : nat) :
  Spec.rounded_to n x (Py.round x n).
Proof.
  unfold Spec.rounded_to, Py.round. cbv zeta.
  pose proof (scale_pos n) as P.
  set (S := inject_Z (10 ^ Z.of_nat n)) in *.
  destruct (round_half_even_nearest (x * S)) as [Lo [Hi Tie]].
  exists (Py.round_half_even (x * S)).
  set (K := inject_Z (Py.round_half_even (x * S))) in *.
  assert (1 / S * S == 1) as U by (field; lra).
  assert (0 < 1 / S) as Upos.
  { unfold Qdiv. rewrite Qmult_1_l. apply Qinv_lt_0_compat. exact P. }
  set (u := 1 / S) in *.
  assert (K / S == K * u) as R by (unfold u; field; lra).
  assert (x == x * S * u) as X.
  { transitivity (x * (u * S)); [rewrite U; ring | ring]. }
  rewrite R.
  split; [reflexivity|].
  assert ((K - (x * S - (1 # 2))) * u >= 0) as A
      by (apply Qmult_le_0_compat; lra).
  assert ((x * S + (1 # 2) - K) * u >= 0) as B
      by (apply Qmult_le_0_compat; lra).
  set (q := x * S) in *.
  assert (x - u / 2 == (q - (1 # 2)) * u) as E1.
  { rewrite X at 1. unfold Qdiv. change (/ 2) with (1 # 2). ring. }
  assert (x + u / 2 == (q + (1 # 2)) * u) as E2.
  { rewrite X at 1. unfold Qdiv. change (/ 2) with (1 # 2). ring. }
  split; [rewrite E1; lra|].
  split; [rewrite E2; lra|].
  intro T. apply Tie.
  assert (K - q == (K * u - x) * S) as D1.
  { transitivity (K * (u * S) - x * S); [rewrite U; unfold q; ring | ring]. }
  assert (u / 2 * S == 1 # 2) as D2.
  { transitivity (u * S * (1 # 2));
      [unfold Qdiv; change (/ 2) with (1 # 2); ring | rewrite U; ring]. }
  destruct T as [T | T].
  - left. rewrite D1, T. exact D2.
  - right.
    assert (q - K == (x - K * u) * S) as D3.
    { transitivity (x * S - K * (u * S));
        [rewrite U; unfold q; ring | ring]. }
    rewrite D3, T. exact D2.
Qed.

Lemma rounded_to_comp (n : nat) (x x' r : Q) :
  x == x' -> Spec.rounded_to n x r -> Spec.rounded_to n x' r.
Proof.
  unfold Spec.rounded_to. cbv zeta.
  intros E [k [R [Lo [Hi Tie]]]].
  exists k. split; [exact R|].
  split; [rewrite <- E; exact Lo|].
  split; [rewrite <- E; exact Hi|].
  intro T. apply Tie. rewrite E. exact T.
Qed.

End RoundFacts.

(* ------------------------------------------------------------------ *)
(** * Stage assignment and the recommended action *)

Module StageFacts.

Import Scoring PyFacts.
Local Open Scope string_scope.
Local Open Scope Q_scope.

Lemma first_stage_hit (threshold : Q) (name : string)
      (rest : list (Q * string)) (t : Q) (default : string) :
  threshold <= t -> first_stage ((threshold, name) :: rest) t default = name.
Proof.
  intro H. simpl. apply geb_true in H. rewrite H. reflexivity.
Qed.

Lemma first_stage_miss (threshold : Q) (name : string)
      (rest : list (Q * string)) (t : Q) (default : string) :
  t < threshold ->
  first_stage ((threshold, name) :: rest) t default
  = first_stage rest t default.
Proof.
  intro H. simpl. apply geb_false in H. rewrite H. reflexivity.
Qed.

Lemma stage_enterprise_ready (t : Q) :
  78 <= t -> assign_stage t = "Enterprise Ready".
Proof. intro H. apply first_stage_hit. exact H. Qed.

Lemma stage_high_velocity (t : Q) :
  63 <= t -> t < 78 -> assign_stage t = "High Velocity".
Proof.
  intros Lo Hi. unfold assign_stage, STAGE_THRESHOLDS.
  rewrite first_stage_miss by exact Hi. apply first_stage_hit. exact Lo.
Qed.

Lemma stage_qualified (t : Q) :
  48 <= t -> t < 63 -> assign_stage t = "Qualified".
Proof.
  intros Lo Hi. unfold assign_stage, STAGE_THRESHOLDS.
  do 2 (rewrite first_stage_miss by lra). apply first_stage_hit. exact Lo.
Qed.

Lemma stage_nurture (t : Q) :
  33 <= t -> t < 48 -> assign_stage t = "Nurture".
Proof.
  intros Lo Hi. unfold assign_stage, STAGE_THRESHOLDS.
  do 3 (rewrite first_stage_miss by lra). apply first_stage_hit. exact Lo.
Qed.

Lemma stage_at_risk (t : Q) : t < 33 -> assign_stage t = "At Risk".
Proof.
  intro Hi. unfold assign_stage, STAGE_THRESHOLDS.
  do 4 (rewrite first_stage_miss by lra).
  simpl. destruct (t >=? 0); reflexivity.
Qed.


(** C3. Stage assignment is a total function of the composite score that
    walks the thresholds in descending order and stops at the first one
    reached: a score of at least 78 is "Enterprise Ready", at least 63
    "High Velocity", at least 48 "Qualified", at least 33 "Nurture", and
    anything else "At Risk".  Every score therefore gets one of five
    distinct stages; 78.0 is "Enterprise Ready" and 77.9 "High Velocity". *)
Theorem stage_assignment_by_thresholds :
  (forall t : Q,
      (78 <= t -> assign_stage t = "Enterprise Ready")
      /\ (63 <= t < 78 -> assign_stage t = "High Velocity")
      /\ (48 <= t < 63 -> assign_stage t = "Qualified")
      /\ (33 <= t < 48 -> assign_stage t = "Nurture")
      /\ (t < 33 -> assign_stage t = "At Risk")
      /\ In (assign_stage t) (map snd STAGE_THRESHOLDS))
  /\ NoDup (map snd STAGE_THRESHOLDS)
  /\ assign_stage 78.0 = "Enterprise Ready"
  /\ assign_stage 77.9 = "High Velocity".
Proof.
  split; [| split; [| split; reflexivity]].
  - intro t.
    split; [apply stage_enterprise_ready|].
    split; [intros [Lo Hi]; apply stage_high_velocity; assumption|].
    split; [intros [Lo Hi]; apply stage_qualified; assumption|].
    split; [intros [Lo Hi]; apply stage_nurture; assumption|].
    split; [apply stage_at_risk|].
    destruct (Qlt_le_dec t 33) as [A | A];
      [rewrite stage_at_risk by exact A; simpl; tauto|].
    destruct (Qlt_le_dec t 48) as [B | B];
      [rewrite stage_nurture by assumption; simpl; tauto|].
    destruct (Qlt_le_dec t 63) as [C | C];
      [rewrite stage_qualified by assumption; simpl; tauto|].
    destruct (Qlt_le_dec t 78) as [D | D];
      [rewrite stage_high_velocity by assumption; simpl; tauto|].
    rewrite stage_enterprise_ready by assumption. simpl. tauto.
  - simpl. repeat constructor; simpl; intuition discriminate.
Qed.

Lemma stage_assignment_by_thresholds_witness :
  assign_stage 70 = "High Velocity" /\ assign_stage 50.5 = "Qualified"
  /\ assign_stage 40 = "Nurture" /\ assign_stage 12 = "At Risk"
  /\ assign_stage 100 = "Enterprise Ready".
Proof.
  split; [| split; [| split; [| split]]].
  - apply (proj1 stage_assignment_by_thresholds 70). split; lra.
  - apply (proj1 stage_assignment_by_thresholds 50.5). split; lra.
  - apply (proj1 stage_assignment_by_thresholds 40). split; lra.
  - apply (proj1 stage_assignment_by_thresholds 12). lra.
  - apply (proj1 stage_assignment_by_thresholds 100). lra.
Defined.

(** C9. The recommended action is looked up by stage, and inside a stage
    the conditions are tried in the order of the source, the first one
    that holds deciding: for "Qualified", a model count of at most one
    gives the multi-model guide whatever the production ratio is; only
    with more than one model does a production ratio under 0.6 give the
    deployment-support action; the discovery call is what remains. *)
Theorem recommended_action_first_match (row : ScoredRow) :
  (stage (scores row) = "Enterprise Ready" ->
   get_recommended_action row
   = "Route to AE for enterprise contract discussion")
  /\ (stage (scores row) = "High Velocity" ->
      get_recommended_action row
      = if (enterprise_seats (base row) =? 0)%Z
        then "Introduce Claude for Enterprise; schedule product demo"
        else "Monitor for trigger event; prepare custom pricing proposal")
  /\ (stage (scores row) = "Qualified" ->
      ((n_models (base row) <= 1)%Z ->
       get_recommended_action row
       = "Share multi-model use case guide; suggest Sonnet for cost optimization")
      /\ ((1 < n_models (base row))%Z -> prod_ratio (base row) < 0.6 ->
          get_recommended_action row
          = "Offer production deployment support; share best practices")
      /\ ((1 < n_models (base row))%Z -> 0.6 <= prod_ratio (base row) ->
          get_recommended_action row
          = "Assign SDR for discovery call; share enterprise case studies"))
  /\ (stage (scores row) = "Nurture" ->
      get_recommended_action row
      = if row_growth (base row) <? 0
        then "Trigger re-engagement campaign; offer office hours"
        else "Add to nurture sequence; share relevant content")
  /\ (stage (scores row) <> "Enterprise Ready" ->
      stage (scores row) <> "High Velocity" ->
      stage (scores row) <> "Qualified" ->
      stage (scores row) <> "Nurture" ->
      get_recommended_action row
      = if (days_inactive (base row) >? 14)%Z
        then "CSM outreach: check-in call to understand blockers"
        else "CSM intervention: identify churn risk factors").
Proof.
  unfold get_recommended_action.
  split; [intros ->; reflexivity|].
  split; [intros ->; reflexivity|].
  split.
  { intros ->. simpl. split; [|split].
    - intros M. apply Z.leb_le in M. rewrite M. reflexivity.
    - intros M P. apply Z.leb_gt in M. rewrite M.
      apply ltb_true in P. rewrite P. reflexivity.
    - intros M P. apply Z.leb_gt in M. rewrite M.
      apply ltb_false in P. rewrite P. reflexivity. }
  split; [intros ->; reflexivity|].
  intros A B C D.
  apply String.eqb_neq in A, B, C, D. rewrite A, B, C, D. reflexivity.
Qed.

Lemma recommended_action_first_match_witness :
  get_recommended_action
    {| base := Sample.dormant_row;
       scores := {| conversion_score := 50; stage := "Qualified";
                    usage_intensity_score := 0;
                    production_maturity_score := 0;
                    team_adoption_score := 0;
                    cross_channel_score := 0;
                    risk_penalty := 10 |} |}
  = "Share multi-model use case guide; suggest Sonnet for cost optimization".
Proof.
  refine (proj1 (proj1 (proj2 (proj2 (recommended_action_first_match _)))
                       _) _).
  - reflexivity.
  - simpl. lia.
Defined.

End StageFacts.

(* ------------------------------------------------------------------ *)
(** * The category scorers and the risk penalty *)

Module ScorerFacts.

Import Scoring PyFacts.
Local Open Scope Q_scope.

(** Integer comparisons of the source, as order facts. *)
Ltac z_cases :=
  repeat match goal with
  | |- context [(?a >=? ?b)%Z] =>
      rewrite (Z.geb_leb a b); destruct (Z.leb_spec b a)
  | |- context [(?a >? ?b)%Z] =>
      rewrite (Z.gtb_ltb a b); destruct (Z.ltb_spec b a)
  | |- context [(?a <=? ?b)%Z] => destruct (Z.leb_spec a b)
  | |- context [(?a =? ?b)%Z] => destruct (Z.eqb_spec a b)
  end.

(** ** Growth *)

Lemma score_growth_range (g : Q) : 0 <= _score_growth g <= 100.
Proof. unfold _score_growth. py_cases; q_arith. Qed.

Lemma score_growth_boundaries :
  _score_growth 0.50 == 100
  /\ _score_growth 0.20 == 40
  /\ 40 + (0.50 - 0.20) / 0.30 * 60 == 100
  /\ 0.20 / 0.20 * 40 == 40.
Proof. repeat split; vm_compute; reflexivity. Qed.

(** From zero growth upwards the three segments join into a curve that
    never decreases and never rises faster than 200 points per unit. *)
Lemma score_growth_monotone_from_zero (x y : Q) :
  0 <= x -> x <= y ->
  _score_growth x <= _score_growth y
  /\ _score_growth y - _score_growth x <= 200 * (y - x).
Proof. intros Hx Hxy. unfold _score_growth. py_cases; q_arith. Qed.

Lemma score_growth_monotone_below_zero (x y : Q) :
  x <= y -> y < 0 -> _score_growth x <= _score_growth y.
Proof. intros Hxy Hy. unfold _score_growth. py_cases; q_arith. Qed.

(** C4, as it was stated, fails between a shrinking and a flat account: a
    growth rate of -0.05 scores 15 and a growth rate of 0 scores 0, so the
    curve falls by 15 points between them, and it drops by almost 20 points
    at zero: just below zero the score is still above 19.  The scorer is not
    non-decreasing over all growth rates, and not continuous at zero. *)
Theorem score_growth_drops_at_zero :
  _score_growth (-0.05) == 15
  /\ _score_growth 0 == 0
  /\ - 0.05 <= 0
  /\ ~ _score_growth (-0.05) <= _score_growth 0
  /\ (forall x : Q, - 0.01 <= x -> x < 0 ->
                    19 <= _score_growth x - _score_growth 0).
Proof.
  split; [vm_compute; reflexivity|].
  split; [vm_compute; reflexivity|].
  split; [lra|].
  split.
  - intro H. vm_compute in H. apply H. reflexivity.
  - intros x Lo Hi. unfold _score_growth. py_cases; q_arith.
Qed.

(** C4 (amended). The growth scorer is continuous and monotonic
    non-decreasing across its three segments [0, 0.20), [0.20, 0.50) and
    from 0.50 on, and so is its branch for negative growth rates: for
    x <= y that are both at least 0 or both below 0, the score of x is at
    most the score of y, which exceeds it by at most 200 (y - x).  At the
    segment boundaries both formulas agree: growth 0.50 yields exactly 100
    and growth 0.20 yields exactly 40. *)
Theorem score_growth_monotone_on_each_side (x y : Q) :
  x <= y -> 0 <= x \/ y < 0 ->
  _score_growth x <= _score_growth y
  /\ _score_growth y - _score_growth x <= 200 * (y - x)
  /\ _score_growth 0.50 == 100
  /\ 40 + (0.50 - 0.20) / 0.30 * 60 == 100
  /\ _score_growth 0.20 == 40
  /\ 0.20 / 0.20 * 40 == 40.
Proof.
  intros Hxy Side.
  split; [unfold _score_growth; destruct Side; py_cases; q_arith|].
  split; [unfold _score_growth; destruct Side; py_cases; q_arith|].
  repeat split; vm_compute; reflexivity.
Qed.

Lemma score_growth_monotone_on_each_side_witness :
  _score_growth 0.1 <= _score_growth 0.35
  /\ _score_growth (- 0.3) <= _score_growth (- 0.05).
Proof.
  split.
  - apply (score_growth_monotone_on_each_side 0.1 0.35); [| left]; lra.
  - apply (score_growth_monotone_on_each_side (- 0.3) (- 0.05));
      [| right]; lra.
Defined.

(** ** The other piecewise scorers *)

Lemma score_prod_ratio_range (p : Q) :
  0 <= p -> 0 <= _score_prod_ratio p <= 100.
Proof. intro H. unfold _score_prod_ratio. py_cases; q_arith. Qed.

Lemma score_error_rate_range (e : Q) :
  0 <= e -> 0 <= _score_error_rate e <= 100.
Proof.
  intro H. unfold _score_error_rate.
  py_cases; simpl; py_cases; q_arith.
Qed.

Lemma score_model_diversity_range (n : Z) :
  0 <= _score_model_diversity n <= 100.
Proof. unfold _score_model_diversity. z_cases; lra. Qed.

Lemma inject_Z_bounds (n lo hi : Z) :
  (lo <= n)%Z -> (n <= hi)%Z -> inject_Z lo <= inject_Z n <= inject_Z hi.
Proof. intros A B. rewrite <- !Zle_Qle. lia. Qed.

Lemma score_domain_users_range (u : Z) :
  (0 <= u)%Z -> 0 <= _score_domain_users u <= 100.
Proof.
  intro H. unfold _score_domain_users. z_cases; [lra|].
  pose proof (inject_Z_bounds u 0 10 ltac:(lia) ltac:(lia)) as B.
  change (inject_Z 0) with 0 in B. change (inject_Z 10) with 10 in B.
  q_arith.
Qed.

Lemma score_enterprise_seats_range (s : Z) :
  0 <= _score_enterprise_seats s <= 100.
Proof.
  unfold _score_enterprise_seats. z_cases; try lra.
  pose proof (inject_Z_bounds s 0 100 ltac:(lia) ltac:(lia)) as B.
  change (inject_Z 0) with 0 in B. change (inject_Z 100) with 100 in B.
  py_cases; q_arith.
Qed.

Lemma normalize_spend_log_range (log10 : Q -> Q) (spend max_spend : Q) :
  0 <= _normalize_spend_log log10 spend max_spend <= 100.
Proof.
  unfold _normalize_spend_log.
  destruct (spend <=? 0); [lra|].
  set (v := _ / _ * 100). py_cases; lra.
Qed.

Lemma score_daily_requests_range (log10 : Q -> Q) (n : Z) :
  0 <= _score_daily_requests log10 n <= 100.
Proof.
  unfold _score_daily_requests.
  destruct (n <=? 0)%Z; [lra|].
  set (v := _ / _ * 100). py_cases; lra.
Qed.

(** ** Cross-channel *)

Lemma score_cross_channel_range (n : Z) (ratio : Q) :
  (1 <= n)%Z -> 0 <= _score_cross_channel n ratio <= 100.
Proof.
  intro H. unfold _score_cross_channel.
  assert (0 <= inject_Z ((n - 1) * 40)) as P.
  { change 0 with (inject_Z 0). rewrite <- Zle_Qle. lia. }
  set (base := inject_Z ((n - 1) * 40)) in *.
  py_cases; lra.
Qed.

Lemma score_cross_channel_documented_points :
  _score_cross_channel 1 0 == 0
  /\ _score_cross_channel 2 0 == 40
  /\ _score_cross_channel 3 0 == 80
  /\ _score_cross_channel 4 0 == 100
  /\ _score_cross_channel 2 3.01 == 60.
Proof. repeat split; vm_compute; reflexivity. Qed.

(** C2. The cross-channel scorer outside [0,100]: an account whose four
    channel spends are all zero has 0 active channels, and with 0 channels
    the scorer returns -40, or -20 when the marketplace ratio exceeds 3 (as
    the 99.0 of an account without direct spend does); for no ratio is the
    result in range. *)
Theorem score_cross_channel_negative_without_channels :
  Signals.active_channels
    (Signals.compute_cross_channel_spend [Sample.idle_account] "ACC-1001")
  = 0%Z
  /\ _score_cross_channel 0 0 == - 40
  /\ _score_cross_channel 0 99.0 == - 20
  /\ (forall ratio : Q, _score_cross_channel 0 ratio < 0).
Proof.
  split; [reflexivity|].
  split; [vm_compute; reflexivity|].
  split; [vm_compute; reflexivity|].
  intro ratio. unfold _score_cross_channel.
  change (inject_Z ((0 - 1) * 40)) with (- 40).
  py_cases; lra.
Qed.

(** ** Risk penalty *)

Lemma Qabs_of_negative_scaled (g : Q) : 0 <= Qabs g * 20.
Proof. pose proof (Qabs_nonneg g). lra. Qed.

(** C6. Whatever the days of inactivity, the growth rate and the model
    count are, the risk penalty is the sum of its four terms (4.0 beyond
    14 days, the linear share of 4.0 between 7 and 14 days, the capped
    decline term for a negative growth rate, 2.0 for at most one model)
    clamped to [0,10], and so lies in [0,10]; the extreme account with
    10000 idle days, growth -5.0 and no model gets exactly 10. *)
Theorem risk_penalty_is_clamped_sum (days_inactive : Z) (growth_rate : Q)
        (n_models : Z) :
  _compute_risk_penalty days_inactive growth_rate n_models
  == Spec.risk_penalty days_inactive growth_rate n_models
  /\ 0 <= _compute_risk_penalty days_inactive growth_rate n_models <= 10
  /\ _compute_risk_penalty 10000 (-5.0) 0 == 10.
Proof.
  assert (_compute_risk_penalty days_inactive growth_rate n_models
          == Spec.risk_penalty days_inactive growth_rate n_models) as E.
  { unfold _compute_risk_penalty, Spec.risk_penalty, Spec.inactivity_term,
      Spec.decline_term, Spec.single_model_term.
    rewrite <- max_min_is_clamp.
    pose proof (Qabs_of_negative_scaled growth_rate) as A.
    set (decline := Qabs growth_rate * 20) in *.
    destruct (Q.min_spec 4.0 decline) as [[L Em] | [L Em]];
      set (capped := Qmin 4.0 decline) in *.
    all: destruct (Z_lt_dec 14 days_inactive) as [D14 | D14];
      [| destruct (Z_lt_dec 7 days_inactive) as [D7 | D7]];
      destruct (Qlt_le_dec growth_rate 0) as [G | G];
      destruct (Z_le_dec n_models 1) as [M | M];
      z_cases; try lia.
    all: try (pose proof (inject_Z_bounds (days_inactive - 7) 0 7
                            ltac:(lia) ltac:(lia)) as B;
              change (inject_Z 0) with 0 in B;
              change (inject_Z 7) with 7 in B;
              set (idle := inject_Z (days_inactive - 7)) in * ).
    all: py_cases; q_arith. }
  split; [exact E|].
  split.
  - rewrite E. apply clamp_range. lra.
  - vm_compute. reflexivity.
Qed.

End ScorerFacts.

(* ------------------------------------------------------------------ *)
(** * The composite score *)

Module CompositeFacts.

Import Scoring PyFacts RoundFacts.
Local Open Scope string_scope.
Local Open Scope Q_scope.

Section WithLog10.

Variable log10 : Q -> Q.



Lemma total_score_range (row : Row) : 0 <= total_score log10 row <= 100.
Proof.
  unfold total_score. rewrite max_min_is_clamp. apply clamp_range. lra.
Qed.

Lemma total_score_is_composite (row : Row) :
  total_score log10 row
  == Spec.composite (usage_intensity log10 row) (production_maturity row)
                    (team_adoption row) (cross_channel row)
                    (row_risk_penalty row).
Proof.
  unfold total_score, Spec.composite, raw_score.
  rewrite max_min_is_clamp. unfold Spec.clamp.
  apply Q.max_compat; [reflexivity|].
  apply Q.min_compat; [reflexivity|]. ring.
Qed.

Lemma composite_of_values (row : Row) (u p t c r v : Q) :
  usage_intensity log10 row == u -> production_maturity row == p ->
  team_adoption row == t -> cross_channel row == c ->
  row_risk_penalty row == r ->
  0 <= v <= 100 ->
  0.30 * u + 0.25 * p + 0.20 * t + 0.15 * c - r == v ->
  total_score log10 row == v.
Proof.
  intros Eu Ep Et Ec Er Range Ev.
  rewrite total_score_is_composite. unfold Spec.composite, Spec.clamp.
  destruct (Q.max_spec 0 (Qmin 100 (0.30 * usage_intensity log10 row
                                    + 0.25 * production_maturity row
                                    + 0.20 * team_adoption row
                                    + 0.15 * cross_channel row
                                    - row_risk_penalty row)))
    as [[L ->] | [L ->]];
    destruct (Q.min_spec 100 (0.30 * usage_intensity log10 row
                              + 0.25 * production_maturity row
                              + 0.20 * team_adoption row
                              + 0.15 * cross_channel row
                              - row_risk_penalty row))
    as [[M E] | [M E]]; rewrite ?E in *; lra.
Qed.

(** C1 (amended). For every row the returned [conversion_score] is the
    clamped composite
    clamp(0.30*Usage + 0.25*Production + 0.20*Team + 0.15*CrossChannel
    - risk_penalty, 0, 100) rounded to one decimal, with the three
    aggregates weighted as documented; it lies in [0,100].  The four
    weights add up to 0.90: with every category at 100 and no penalty
    the score is 90, and with every category at 0 and the penalty at 10
    it is 0. *)
Theorem conversion_score_is_rounded_composite (row : Row) :
  let spend_score :=
    _normalize_spend_log log10 (latest_total_spend row) 80000 in
  let growth_score := _score_growth (row_growth row) in
  let request_score := _score_daily_requests log10 (daily_requests row) in
  let prod_score := _score_prod_ratio (prod_ratio row) in
  let error_score := _score_error_rate (error_rate row) in
  let model_score := _score_model_diversity (n_models row) in
  let users_score := _score_domain_users (unique_users row) in
  let seats_score := _score_enterprise_seats (enterprise_seats row) in
  let usage := Spec.UsageIntensity spend_score growth_score request_score in
  let production :=
    Spec.ProductionMaturity prod_score error_score model_score in
  let team := Spec.TeamAdoption users_score seats_score in
  let cross :=
    _score_cross_channel (row_channels row) (marketplace_to_direct row) in
  let risk :=
    _compute_risk_penalty (days_inactive row) (row_growth row)
                          (n_models row) in
  let returned := conversion_score (score_account log10 row) in
  returned == Py.round (Spec.composite usage production team cross risk) 1
  /\ 0 <= returned <= 100
  /\ (usage == 100 -> production == 100 -> team == 100 -> cross == 100 ->
      risk == 0 -> returned == 90)
  /\ (usage == 0 -> production == 0 -> team == 0 -> cross == 0 ->
      risk == 10 -> returned == 0).
Proof.
  cbv zeta. simpl conversion_score.
  fold (usage_intensity log10 row).
  change (Spec.ProductionMaturity _ _ _) with (production_maturity row).
  change (Spec.TeamAdoption _ _) with (team_adoption row).
  fold (cross_channel row). fold (row_risk_penalty row).
  split; [| split; [| split]].
  - rewrite (round_comp _ _ 1 (total_score_is_composite row)).
    reflexivity.
  - pose proof (total_score_range row) as [Lo Hi]. split.
    + apply (round_lower _ 1 0). exact Lo.
    + apply (round_upper _ 1 100). exact Hi.
  - intros Eu Ep Et Ec Er.
    rewrite (round_comp _ 90 1);
      [vm_compute; reflexivity|].
    apply (composite_of_values row 100 100 100 100 0); try assumption; lra.
  - intros Eu Ep Et Ec Er.
    rewrite (round_comp _ 0 1);
      [vm_compute; reflexivity|].
    rewrite total_score_is_composite.
    unfold Spec.composite, Spec.clamp.
    rewrite Eu, Ep, Et, Ec, Er. vm_compute. reflexivity.
Qed.


End WithLog10.

Lemma conversion_score_is_rounded_composite_witness :
  conversion_score (score_account Sample.log10_interp Sample.saturated_row)
  == 90
  /\ conversion_score (score_account Sample.log10_interp Sample.dormant_row)
     == 0.
Proof.
  split.
  - apply (conversion_score_is_rounded_composite
             Sample.log10_interp Sample.saturated_row);
      vm_compute; reflexivity.
  - apply (conversion_score_is_rounded_composite
             Sample.log10_interp Sample.dormant_row);
      vm_compute; reflexivity.
Defined.


(** C1, as it was stated, fails on the saturated account: all four
    categories are at 100 and the penalty is 0, and the composite is 90,
    before and after rounding, not 100.  On the borderline account the
    returned score, 78.0, is not the clamped composite, 77.97. *)
Lemma saturated_composite_is_not_100 :
  let log10 := Sample.log10_interp in
  usage_intensity log10 Sample.saturated_row == 100
  /\ production_maturity Sample.saturated_row == 100
  /\ team_adoption Sample.saturated_row == 100
  /\ cross_channel Sample.saturated_row == 100
  /\ row_risk_penalty Sample.saturated_row == 0
  /\ total_score log10 Sample.saturated_row == 90
  /\ ~ conversion_score (score_account log10 Sample.saturated_row) == 100
  /\ ~ conversion_score (score_account log10 Sample.borderline_row)
       == Spec.composite (usage_intensity log10 Sample.borderline_row)
                         (production_maturity Sample.borderline_row)
                         (team_adoption Sample.borderline_row)
                         (cross_channel Sample.borderline_row)
                         (row_risk_penalty Sample.borderline_row).
Proof.
  cbv zeta.
  do 6 (split; [vm_compute; reflexivity|]).
  split; intro H; vm_compute in H; discriminate.
Qed.

End CompositeFacts.

(* ------------------------------------------------------------------ *)
(** * Non-finite floats: equality and arithmetic *)

Module PyFloatFacts.

Local Open Scope Q_scope.

Lemma float_eq_refl (a : pyfloat) : PyFloat.eq a a.
Proof. destruct a; simpl; auto with qarith. Qed.

Lemma float_eq_trans (a b c : pyfloat) :
  PyFloat.eq a b -> PyFloat.eq b c -> PyFloat.eq a c.
Proof.
  destruct a, b, c; simpl; try tauto. intros E F. rewrite E. exact F.
Qed.

Lemma float_add_comp (a a' b b' : pyfloat) :
  PyFloat.eq a a' -> PyFloat.eq b b' ->
  PyFloat.eq (PyFloat.add a b) (PyFloat.add a' b').
Proof.
  destruct a, a', b, b'; simpl; try tauto.
  intros E F. rewrite E, F. reflexivity.
Qed.

Lemma float_mul_comm (a b : pyfloat) :
  PyFloat.eq (PyFloat.mul a b) (PyFloat.mul b a).
Proof.
  destruct a, b; simpl; try tauto; try apply float_eq_refl. ring.
Qed.

Lemma float_round_comp (a b : pyfloat) (n : nat) :
  PyFloat.eq a b -> PyFloat.eq (PyFloat.round a n) (PyFloat.round b n).
Proof.
  destruct a, b; simpl; try tauto.
  intro E. rewrite (RoundFacts.round_comp _ _ n E). reflexivity.
Qed.

(** Twelve factors of a finite number are its twelfth power. *)
Lemma pow12_finite (x : Q) :
  exists y : Q, PyFloat.pow (Fin x) 12 = Fin y /\ y == x ^ 12.
Proof.
  eexists. split; [reflexivity|]. simpl. ring.
Qed.

End PyFloatFacts.

(* ------------------------------------------------------------------ *)
(** * Grouping by month *)

Module PandasFacts.

Local Open Scope Q_scope.

Lemma add_to_group_keys (key : Z) (value : Q) (groups : list (Z * Q)) (k : Z) :
  In k (Pandas.keys (Pandas.add_to_group key value groups)) ->
  k = key \/ In k (Pandas.keys groups).
Proof.
  induction groups as [| [k' total] rest IH]; simpl.
  - intros [<- | []]. left. reflexivity.
  - destruct (Z.ltb_spec key k') as [Lt | Ge]; simpl.
    + intros [<- | H]; [left; reflexivity | right; exact H].
    + destruct (Z.eqb_spec key k') as [-> | Ne]; simpl.
      * intro H. right. exact H.
      * intros [<- | H]; [right; left; reflexivity|].
        destruct (IH H) as [-> | H'];
          [left; reflexivity | right; right; exact H'].
Qed.

Lemma add_to_group_sorted (key : Z) (value : Q) (groups : list (Z * Q)) :
  StronglySorted Z.lt (Pandas.keys groups) ->
  StronglySorted Z.lt (Pandas.keys (Pandas.add_to_group key value groups)).
Proof.
  induction groups as [| [k' total] rest IH]; simpl; intro S.
  - repeat constructor.
  - inversion S as [| ? ? S' All]; subst.
    destruct (Z.ltb_spec key k') as [Lt | Ge]; simpl.
    + constructor; [exact S|].
      constructor; [exact Lt|].
      eapply Forall_impl; [| exact All]. simpl. intros; lia.
    + destruct (Z.eqb_spec key k') as [-> | Ne]; simpl.
      * exact S.
      * constructor; [apply IH; exact S'|].
        apply Forall_forall. intros k Hk.
        destruct (add_to_group_keys _ _ _ _ Hk) as [-> | Hin]; [lia|].
        rewrite Forall_forall in All. apply All. exact Hin.
Qed.

Lemma add_to_group_total (key : Z) (value : Q) (groups : list (Z * Q)) :
  Pandas.grand_total (Pandas.add_to_group key value groups)
  == Pandas.grand_total groups + value.
Proof.
  unfold Pandas.grand_total.
  induction groups as [| [k' total] rest IH]; simpl.
  - ring.
  - destruct (key <? k')%Z; simpl; [ring|].
    destruct (key =? k')%Z; simpl; [ring|].
    rewrite IH. ring.
Qed.

(** The buckets come out in chronological order, one per month, and no
    spend is lost or counted twice. *)
Lemma groupby_sum_sorted_and_complete (rows : list (Z * Q)) :
  StronglySorted Z.lt (Pandas.keys (Pandas.groupby_sum rows))
  /\ Pandas.grand_total (Pandas.groupby_sum rows) == Pandas.grand_total rows.
Proof.
  unfold Pandas.groupby_sum.
  assert (forall groups : list (Z * Q),
             StronglySorted Z.lt (Pandas.keys groups) ->
             let result :=
               fold_left
                 (fun g r => Pandas.add_to_group (fst r) (snd r) g)
                 rows groups in
             StronglySorted Z.lt (Pandas.keys result)
             /\ Pandas.grand_total result
                == Pandas.grand_total groups + Pandas.grand_total rows)
    as G.
  { induction rows as [| r rows IH]; intros groups S; simpl.
    - split; [exact S | unfold Pandas.grand_total; simpl; ring].
    - destruct (IH (Pandas.add_to_group (fst r) (snd r) groups)
                   (add_to_group_sorted _ _ _ S)) as [S' T].
      split; [exact S'|].
      rewrite T, add_to_group_total. unfold Pandas.grand_total. simpl. ring. }
  destruct (G [] ltac:(constructor)) as [S T].
  split; [exact S|]. rewrite T. unfold Pandas.grand_total. simpl. ring.
Qed.

End PandasFacts.

(* ------------------------------------------------------------------ *)
(** * Growth-rate derivation and blending *)

Module SignalFacts.

Import Signals.
Local Open Scope string_scope.
Local Open Scope Q_scope.

Lemma is_finite_inv (a : pyfloat) (q : Q) :
  PyFloat.is_finite a q -> exists p : Q, a = Fin p /\ p == q.
Proof.
  destruct a as [p | | |]; simpl; try tauto.
  intro E. exists p. split; [reflexivity | exact E].
Qed.

Lemma tail_is_last_n {A : Type} (n : nat) (l : list A) :
  Pandas.tail n l = Spec.last_n n l.
Proof.
  unfold Pandas.tail, Spec.last_n.
  rewrite firstn_rev, rev_involutive. reflexivity.
Qed.

Lemma changes_from_finite (prev : Q) (l : list Q) :
  Spec.nonzero prev -> Forall Spec.nonzero l ->
  Forall2 PyFloat.is_finite (Pandas.changes_from prev l)
          (Spec.period_changes (prev :: l)).
Proof.
  revert prev. induction l as [| cur rest IH]; intros prev Hp Hl.
  - constructor.
  - inversion Hl as [| ? ? Hcur Hrest]; subst.
    simpl. constructor.
    + unfold PyFloat.is_finite, PyFloat.sub, PyFloat.div.
      destruct (Qeq_bool prev 0) eqn:Z.
      * apply Qeq_bool_iff in Z. contradiction.
      * simpl. field. exact Hp.
    + apply IH; assumption.
Qed.

Lemma dropna_finite (cs : list pyfloat) (qs : list Q) :
  Forall2 PyFloat.is_finite cs qs -> Pandas.dropna cs = cs.
Proof.
  induction 1 as [| c q cs qs Hc _ IH]; [reflexivity|].
  destruct (is_finite_inv c q Hc) as [p [-> _]].
  unfold Pandas.dropna in *. simpl. rewrite IH. reflexivity.
Qed.

Lemma sum_finite (cs : list pyfloat) (qs : list Q) :
  Forall2 PyFloat.is_finite cs qs ->
  forall acc : Q,
    PyFloat.is_finite (fold_left PyFloat.add cs (Fin acc))
              (acc + fold_right Qplus 0 qs).
Proof.
  induction 1 as [| c q cs qs Hc _ IH]; intro acc.
  - simpl. ring.
  - destruct (is_finite_inv c q Hc) as [p [-> E]].
    simpl. apply (PyFloatFacts.float_eq_trans _ _ _ (IH (acc + p))).
    simpl. rewrite E. ring.
Qed.

Lemma count_nonzero {A : Type} (l : list A) :
  l <> [] -> Qeq_bool (inject_Z (Z.of_nat (List.length l))) 0 = false.
Proof.
  intro N. destruct l as [| a l]; [congruence|].
  destruct (Qeq_bool _ 0) eqn:E; [|reflexivity].
  apply Qeq_bool_iff in E. unfold Qeq in E. simpl in E. lia.
Qed.

Lemma mean_finite (cs : list pyfloat) (qs : list Q) :
  Forall2 PyFloat.is_finite cs qs -> cs <> [] ->
  PyFloat.is_finite (Pandas.mean cs) (Spec.average qs).
Proof.
  intros H N. unfold Pandas.mean, Pandas.sum, Spec.average.
  destruct (is_finite_inv _ _ (sum_finite cs qs H 0)) as [p [-> E]].
  unfold PyFloat.div. rewrite (count_nonzero cs N).
  unfold PyFloat.is_finite. simpl.
  rewrite E, (Forall2_length H). 
  apply Qmult_comp; [ring | reflexivity].
Qed.

Lemma annualize_finite (a : pyfloat) (q : Q) :
  PyFloat.is_finite a q ->
  PyFloat.is_finite (annualize a) (Spec.annualized q).
Proof.
  intro H. destruct (is_finite_inv a q H) as [p [-> E]].
  unfold annualize.
  change (PyFloat.add (Fin 1) (Fin p)) with (Fin (1 + p)).
  destruct (PyFloatFacts.pow12_finite (1 + p)) as [y [-> Ey]].
  unfold PyFloat.is_finite, Spec.annualized. simpl.
  rewrite Ey, E. ring.
Qed.

(** [compute_growth_rate] in terms of the bucket totals of the account. *)
Lemma compute_growth_rate_unfold (df : list UsageRow) (aid : string) :
  compute_growth_rate df aid
  = let totals := account_totals df aid in
    if (List.length totals <? 2)%nat then Fin 0
    else
      let growth_rates :=
        Pandas.dropna (Pandas.pct_change (Pandas.tail 4 totals)) in
      match growth_rates with
      | [] => Fin 0
      | _ => annualize (Pandas.mean growth_rates)
      end.
Proof.
  unfold compute_growth_rate, account_totals.
  destruct (filter _ df) as [| r rest]; reflexivity.
Qed.

Lemma growth_rate_insufficient_history (df : list UsageRow) (aid : string) :
  (List.length (account_totals df aid) < 2)%nat ->
  compute_growth_rate df aid = Fin 0.
Proof.
  intro H. rewrite compute_growth_rate_unfold. cbv zeta.
  apply Nat.ltb_lt in H. rewrite H. reflexivity.
Qed.

Lemma growth_rate_of_positive_buckets (df : list UsageRow) (aid : string) :
  (2 <= List.length (account_totals df aid))%nat ->
  Forall Spec.nonzero (Spec.last_n 4 (account_totals df aid)) ->
  PyFloat.is_finite (compute_growth_rate df aid)
            (Spec.annualized
               (Spec.average
                  (Spec.period_changes
                     (Spec.last_n 4 (account_totals df aid))))).
Proof.
  intros Len NZ. rewrite compute_growth_rate_unfold. cbv zeta.
  apply Nat.ltb_ge in Len. rewrite Len. apply Nat.ltb_ge in Len.
  rewrite tail_is_last_n.
  assert (2 <= List.length (Spec.last_n 4 (account_totals df aid)))%nat as L.
  { rewrite <- tail_is_last_n. unfold Pandas.tail.
    rewrite length_skipn. lia. }
  destruct (Spec.last_n 4 (account_totals df aid)) as [| p [| c rest]];
    simpl in L; try lia.
  inversion NZ as [| ? ? Hp Hrest]; subst.
  pose proof (changes_from_finite p (c :: rest) Hp Hrest) as F.
  change (Pandas.pct_change (p :: c :: rest))
    with (NaN :: Pandas.changes_from p (c :: rest)).
  change (Pandas.dropna (NaN :: Pandas.changes_from p (c :: rest)))
    with (Pandas.dropna (Pandas.changes_from p (c :: rest))).
  rewrite (dropna_finite _ _ F).
  destruct (Pandas.changes_from p (c :: rest)) as [| g gs] eqn:G;
    [discriminate G|].
  apply annualize_finite. apply mean_finite; [exact F | discriminate].
Qed.

(** Every change is defined as soon as every bucket that has a successor
    is nonzero; the last bucket may be zero. *)
Lemma changes_from_defined (prev : Q) (l : list Q) :
  Spec.nonzero prev -> Forall Spec.nonzero (removelast l) ->
  Forall2 PyFloat.is_finite (Pandas.changes_from prev l)
          (Spec.period_changes (prev :: l)).
Proof.
  revert prev. induction l as [| cur rest IH]; intros prev Hp Hl.
  - constructor.
  - cbn [Pandas.changes_from Spec.period_changes]. constructor.
    + unfold PyFloat.is_finite, PyFloat.sub, PyFloat.div.
      destruct (Qeq_bool prev 0) eqn:Z.
      * apply Qeq_bool_iff in Z. contradiction.
      * simpl. field. exact Hp.
    + destruct rest as [| next rest'].
      * constructor.
      * change (removelast (cur :: next :: rest'))
          with (cur :: removelast (next :: rest')) in Hl.
        inversion Hl as [| ? ? Hcur Hrest]; subst.
        apply IH; assumption.
Qed.

Lemma growth_rate_of_defined_changes (df : list UsageRow) (aid : string) :
  (2 <= List.length (account_totals df aid))%nat ->
  Forall Spec.nonzero (removelast (Spec.last_n 4 (account_totals df aid))) ->
  PyFloat.is_finite (compute_growth_rate df aid)
            (Spec.annualized
               (Spec.average
                  (Spec.period_changes
                     (Spec.last_n 4 (account_totals df aid))))).
Proof.
  intros Len NZ. rewrite compute_growth_rate_unfold. cbv zeta.
  apply Nat.ltb_ge in Len. rewrite Len. apply Nat.ltb_ge in Len.
  rewrite tail_is_last_n.
  assert (2 <= List.length (Spec.last_n 4 (account_totals df aid)))%nat as L.
  { rewrite <- tail_is_last_n. unfold Pandas.tail.
    rewrite length_skipn. lia. }
  destruct (Spec.last_n 4 (account_totals df aid)) as [| p [| c rest]];
    simpl in L; try lia.
  change (removelast (p :: c :: rest)) with (p :: removelast (c :: rest))
    in NZ.
  inversion NZ as [| ? ? Hp Hrest]; subst.
  pose proof (changes_from_defined p (c :: rest) Hp Hrest) as F.
  change (Pandas.pct_change (p :: c :: rest))
    with (NaN :: Pandas.changes_from p (c :: rest)).
  change (Pandas.dropna (NaN :: Pandas.changes_from p (c :: rest)))
    with (Pandas.dropna (Pandas.changes_from p (c :: rest))).
  rewrite (dropna_finite _ _ F).
  destruct (Pandas.changes_from p (c :: rest)) as [| g gs] eqn:G;
    [discriminate G|].
  apply annualize_finite. apply mean_finite; [exact F | discriminate].
Qed.

(** ** The merge of accounts and signals *)

Lemma matching_signal_unique (f : AccountRecord -> Signal)
      (l : list AccountRecord) (a : AccountRecord) :
  (forall x, signal_account_id (f x) = account_id x) ->
  NoDup (map account_id l) -> In a l ->
  filter (fun s => signal_account_id s =? account_id a) (map f l) = [f a].
Proof.
  intros Hid. induction l as [| x l IH]; intros ND Ha; [contradiction|].
  inversion ND as [| ? ? Hx ND']; subst.
  simpl. rewrite Hid.
  destruct (String.eqb_spec (account_id x) (account_id a)) as [E | N].
  - assert (a = x) as ->.
    { destruct Ha as [-> | Ha]; [reflexivity|].
      exfalso. apply Hx. rewrite E. apply in_map. exact Ha. }
    f_equal.
    assert (forall y, In y l ->
                      (signal_account_id (f y) =? account_id x) = false) as F.
    { intros y Hy. rewrite Hid. apply String.eqb_neq. intro E'.
      apply Hx. rewrite <- E'. apply in_map. exact Hy. }
    clear - F. induction l as [| y l IH]; [reflexivity|].
    simpl. rewrite (F y (or_introl Logic.eq_refl)).
    apply IH. intros z Hz. apply F. right. exact Hz.
  - destruct Ha as [-> | Ha]; [congruence|].
    apply IH; assumption.
Qed.

Lemma merge_left_one_to_one (f : AccountRecord -> Signal)
      (signals : list Signal) (l : list AccountRecord) :
  (forall a, In a l ->
             filter (fun s => signal_account_id s =? account_id a) signals
             = [f a]) ->
  merge_left l signals
  = map (fun a => {| account := a; signal := Some (f a) |}) l.
Proof.
  induction l as [| a l IH]; intro H; [reflexivity|].
  unfold merge_left in *. simpl.
  rewrite (H a (or_introl Logic.eq_refl)). simpl. f_equal.
  apply IH. intros b Hb. apply H. right. exact Hb.
Qed.

(** With one row per account identifier the enriched frame of a frame
    that has accounts holds one row per account, in order, carrying the
    signals computed for that account. *)
Lemma compute_all_signals_rows (accounts_df : list AccountRecord)
      (monthly_usage_df : list UsageRow) :
  NoDup (map account_id accounts_df) -> accounts_df <> [] ->
  compute_all_signals accounts_df monthly_usage_df
  = Pandas.Returned
      (map (fun a =>
              {| account := a;
                 signal := Some (signal_of accounts_df monthly_usage_df a) |})
           accounts_df).
Proof.
  intros ND NE. unfold compute_all_signals. cbv zeta.
  destruct (map (signal_of accounts_df monthly_usage_df) accounts_df)
    as [| s0 rest] eqn:M.
  - apply map_eq_nil in M. contradiction.
  - rewrite <- M. f_equal.
    apply merge_left_one_to_one. intros a Ha.
    apply matching_signal_unique; [reflexivity | exact ND | exact Ha].
Qed.

Lemma signal_is_blend (accounts_df : list AccountRecord)
      (monthly_usage_df : list UsageRow) (a : AccountRecord) :
  Spec.blend_of
    (growth_rate a)
    (compute_growth_rate monthly_usage_df (account_id a))
    (computed_growth_rate (signal_of accounts_df monthly_usage_df a)).
Proof.
  unfold signal_of. cbv zeta. simpl computed_growth_rate.
  unfold Spec.blend_of, blended_growth.
  destruct (compute_growth_rate monthly_usage_df (account_id a))
    as [d | | |]; try reflexivity.
  cbn [PyFloat.mul PyFloat.add PyFloat.round].
  eexists. split; [reflexivity|].
  apply (RoundFacts.rounded_to_comp 4 (growth_rate a * 0.7 + d * 0.3));
    [ring | apply RoundFacts.round_is_rounded_to].
Qed.

(** C7. With one row per account and at least one account, every
    enriched record carries a [computed_growth_rate] that is 0.7 times the
    stored growth rate plus 0.3 times the growth rate derived from the
    history, rounded to 4 decimals: the nearest multiple of 0.0001, the
    even one on a tie.  Stored 0.10 and derived 0.20 give 0.13, and a blend
    of 0.086415 is rounded to 0.0864.  The derived rate is 0 for fewer than
    2 buckets; otherwise, every bucket among the last 4 that has a successor
    being nonzero, it is the average of their period-over-period changes,
    annualized as (1 + avg)^12 - 1.  A frame without accounts makes the
    merge raise [KeyError]. *)
Theorem computed_growth_rate_is_blend (accounts_df : list AccountRecord)
        (monthly_usage_df : list UsageRow) :
  NoDup (map account_id accounts_df) -> accounts_df <> [] ->
  (exists enriched : list Enriched,
      compute_all_signals accounts_df monthly_usage_df
      = Pandas.Returned enriched
      /\ map account enriched = accounts_df
      /\ forall e : Enriched,
          In e enriched ->
          exists s : Signal,
            signal e = Some s
            /\ Spec.blend_of
                 (growth_rate (account e))
                 (compute_growth_rate monthly_usage_df
                                      (account_id (account e)))
                 (computed_growth_rate s))
  /\ compute_all_signals [] monthly_usage_df = Pandas.KeyError "account_id"
  /\ PyFloat.eq (PyFloat.round (blended_growth 0.10 (Fin 0.20)) 4) (Fin 0.13)
  /\ PyFloat.eq (PyFloat.round (blended_growth 0.12345 (Fin 0)) 4)
                (Fin 0.0864)
  /\ (forall aid : string,
         let buckets := account_totals monthly_usage_df aid in
         ((List.length buckets < 2)%nat ->
          compute_growth_rate monthly_usage_df aid = Fin 0)
         /\ ((2 <= List.length buckets)%nat ->
             Forall Spec.nonzero (removelast (Spec.last_n 4 buckets)) ->
             PyFloat.eq
               (compute_growth_rate monthly_usage_df aid)
               (Fin (Spec.annualized
                       (Spec.average
                          (Spec.period_changes (Spec.last_n 4 buckets))))))).
Proof.
  intros ND NE.
  split; [| split; [| split; [| split]]].
  - eexists. split; [apply (compute_all_signals_rows _ _ ND NE)|].
    split.
    + rewrite map_map. simpl. apply map_id.
    + intros e He. apply in_map_iff in He. destruct He as [a [<- Ha]].
      eexists. split; [reflexivity|].
      exact (signal_is_blend accounts_df monthly_usage_df a).
  - reflexivity.
  - vm_compute. reflexivity.
  - vm_compute. reflexivity.
  - intro aid. cbv zeta. split.
    + apply growth_rate_insufficient_history.
    + apply growth_rate_of_defined_changes.
Qed.

Lemma computed_growth_rate_is_blend_witness :
  NoDup (map account_id [Sample.idle_account; Sample.growing_account])
  /\ [Sample.idle_account; Sample.growing_account] <> []
  /\ PyFloat.eq (compute_growth_rate Sample.growing_history "ACC-1002")
                (Fin 2.138428376721)
  /\ PyFloat.eq (compute_growth_rate Sample.stalled_history "ACC-1003")
                (Fin ((4 # 3) ^ 12 - 1))
  /\ compute_growth_rate Sample.growing_history "ACC-1001" = Fin 0.
Proof.
  assert (NoDup (map account_id [Sample.idle_account; Sample.growing_account]))
    as ND.
  { simpl. repeat constructor; simpl; intuition discriminate. }
  assert ([Sample.idle_account; Sample.growing_account] <> []) as NE
      by discriminate.
  destruct (computed_growth_rate_is_blend
              [Sample.idle_account; Sample.growing_account]
              Sample.growing_history ND NE) as [_ [_ [_ [_ H]]]].
  destruct (computed_growth_rate_is_blend
              [Sample.idle_account; Sample.growing_account]
              Sample.stalled_history ND NE) as [_ [_ [_ [_ H']]]].
  split; [exact ND|]. split; [exact NE|].
  split; [| split].
  - refine (PyFloatFacts.float_eq_trans
              _ _ _ (proj2 (H "ACC-1002") _ _) _).
    + vm_compute. lia.
    + vm_compute. repeat constructor; discriminate.
    + vm_compute. reflexivity.
  - refine (PyFloatFacts.float_eq_trans
              _ _ _ (proj2 (H' "ACC-1003") _ _) _).
    + vm_compute. lia.
    + vm_compute. repeat constructor; discriminate.
    + vm_compute. reflexivity.
  - apply (proj1 (H "ACC-1001")). vm_compute. lia.
Defined.

(** C5. A period-over-period change over a zero bucket is kept, not
    excluded: for a history of a zero month followed by a month of 100 the
    change is +infinity, [dropna] removes only the NaN of the first month,
    and [compute_growth_rate] returns +infinity, which then is the
    [computed_growth_rate] of the account.  Only the change between two zero
    buckets, a NaN, is dropped and gives 0. *)
Theorem zero_bucket_change_is_not_excluded :
  account_totals Sample.restart_history "ACC-1001" = [0; 100]
  /\ Pandas.pct_change [0; 100] = [NaN; PInf]
  /\ Pandas.dropna [NaN; PInf] = [PInf]
  /\ compute_growth_rate Sample.restart_history "ACC-1001" = PInf
  /\ ~ PyFloat.eq (compute_growth_rate Sample.restart_history "ACC-1001")
                  (Fin 0)
  /\ computed_growth_rate
       (signal_of [Sample.idle_account] Sample.restart_history
                  Sample.idle_account)
     = PInf
  /\ compute_growth_rate
       [Sample.usage "ACC-1001" 0 0; Sample.usage "ACC-1001" 1 0] "ACC-1001"
     = Fin 0.
Proof.
  assert (compute_growth_rate Sample.restart_history "ACC-1001" = PInf) as E
      by (vm_compute; reflexivity).
  split; [vm_compute; reflexivity|].
  split; [vm_compute; reflexivity|].
  split; [vm_compute; reflexivity|].
  split; [exact E|].
  split; [rewrite E; simpl; tauto|].
  split; vm_compute; reflexivity.
Qed.

End SignalFacts.

(* ------------------------------------------------------------------ *)
(** * The marketplace-to-direct ratio *)

Module GeneratorFacts.

Import Generator PyFacts.
Local Open Scope Q_scope.

(** The division of the ratio is only reached with a positive divisor and
    so never faults. *)
Lemma marketplace_to_direct_total (marketplace_spend direct_spend : Q) :
  exists ratio : Q,
    marketplace_to_direct marketplace_spend direct_spend = Some ratio.
Proof.
  unfold marketplace_to_direct, py_div.
  destruct (direct_spend >? 0) eqn:P; [| eexists; reflexivity].
  apply gtb_true in P.
  destruct (Qeq_bool direct_spend 0) eqn:Z; [| eexists; reflexivity].
  apply Qeq_bool_iff in Z. lra.
Qed.

(** C8. With a direct spend of 0 the marketplace-to-direct ratio is the
    sentinel 99.0, whatever the marketplace spend is: the division is not
    evaluated, so there is no fault and no non-finite value. *)
Theorem marketplace_ratio_sentinel (marketplace_spend direct_spend : Q) :
  direct_spend == 0 ->
  marketplace_to_direct marketplace_spend direct_spend = Some 99.0.
Proof.
  intro Z. unfold marketplace_to_direct.
  assert ((direct_spend >? 0) = false) as ->; [| reflexivity].
  apply gtb_false. lra.
Qed.

Lemma marketplace_ratio_sentinel_witness :
  marketplace_to_direct 2500 0 = Some 99.0
  /\ marketplace_to_direct 0 0 = Some 99.0.
Proof.
  split.
  - apply (marketplace_ratio_sentinel 2500 0). reflexivity.
  - apply (marketplace_ratio_sentinel 0 0). reflexivity.
Defined.

End GeneratorFacts.

(* ------------------------------------------------------------------ *)
(** * More on the category scorers *)

Module ScorerShape.

Import Scoring PyFacts.
Local Open Scope Q_scope.

(** The production-ratio score falls when the ratio crosses 0.40: every
    ratio in [0.22, 0.40) scores higher than every ratio in [0.40, 0.43). *)
Theorem score_prod_ratio_drops_at_040 (x y : Q) :
  0.22 <= x -> x < 0.40 -> 0.40 <= y -> y < 0.43 ->
  _score_prod_ratio y < _score_prod_ratio x.
Proof.
  intros Hx Hx' Hy Hy'. unfold _score_prod_ratio. py_cases; q_arith.
Qed.

Lemma score_prod_ratio_drops_at_040_witness :
  _score_prod_ratio 0.41 < _score_prod_ratio 0.39.
Proof.
  apply (score_prod_ratio_drops_at_040 0.39 0.41); lra.
Defined.

(** On each side of 0.40 the production-ratio score never decreases. *)
Theorem score_prod_ratio_monotone_by_side (x y : Q) :
  x <= y -> (y < 0.40 \/ 0.40 <= x) ->
  _score_prod_ratio x <= _score_prod_ratio y.
Proof.
  intros Hxy Side. unfold _score_prod_ratio.
  destruct Side; py_cases; q_arith.
Qed.

Lemma score_prod_ratio_monotone_by_side_witness :
  _score_prod_ratio 0.5 <= _score_prod_ratio 0.9
  /\ _score_prod_ratio 0.1 <= _score_prod_ratio 0.3.
Proof.
  split.
  - apply (score_prod_ratio_monotone_by_side 0.5 0.9); [| right]; lra.
  - apply (score_prod_ratio_monotone_by_side 0.1 0.3); [| left]; lra.
Defined.

(** The error-rate score is 100 exactly on the sweet spot [0.005, 0.02]. *)
Theorem score_error_rate_full_marks_iff (e : Q) :
  _score_error_rate e == 100 <-> 0.005 <= e /\ e <= 0.02.
Proof.
  unfold _score_error_rate. split.
  - py_cases; simpl; py_cases; intro H; try (split; assumption);
      exfalso; revert H; q_arith.
  - intros [Lo Hi]. apply leb_true in Lo. apply leb_true in Hi.
    rewrite Lo, Hi. reflexivity.
Qed.

(** More models never score lower, and the score is 0, 20, 60 or 100. *)
Theorem score_model_diversity_monotone (n m : Z) :
  (n <= m)%Z ->
  _score_model_diversity n <= _score_model_diversity m
  /\ In (_score_model_diversity n) [0; 20; 60; 100].
Proof.
  intro H. unfold _score_model_diversity. split.
  - ScorerFacts.z_cases; try lia; lra.
  - ScorerFacts.z_cases; simpl; tauto.
Qed.

Lemma score_model_diversity_monotone_witness :
  _score_model_diversity 1 <= _score_model_diversity 2.
Proof.
  apply (score_model_diversity_monotone 1 2). lia.
Defined.

(** More unique users never score lower. *)
Theorem score_domain_users_monotone (u v : Z) :
  (u <= v)%Z -> _score_domain_users u <= _score_domain_users v.
Proof.
  intro H. unfold _score_domain_users.
  assert (inject_Z u <= inject_Z v) as Q by (rewrite <- Zle_Qle; exact H).
  ScorerFacts.z_cases; try lia; try lra.
  - pose proof (ScorerFacts.inject_Z_bounds u u 9 ltac:(lia) ltac:(lia)) as B.
    change (inject_Z 9) with 9 in B. q_arith.
  - q_arith.
Qed.

Lemma score_domain_users_monotone_witness :
  _score_domain_users 3 <= _score_domain_users 12.
Proof.
  apply (score_domain_users_monotone 3 12). lia.
Defined.

(** The seat score is the seat count clamped to [0,100]. *)
Theorem score_enterprise_seats_is_clamp (seats : Z) :
  _score_enterprise_seats seats == Spec.clamp (inject_Z seats) 0 100.
Proof.
  unfold _score_enterprise_seats. rewrite <- max_min_is_clamp.
  ScorerFacts.z_cases; try lia.
  - pose proof (ScorerFacts.inject_Z_bounds seats 100 seats
                  ltac:(lia) ltac:(lia)) as B.
    change (inject_Z 100) with 100 in B. py_cases; lra.
  - pose proof (ScorerFacts.inject_Z_bounds seats 1 99
                  ltac:(lia) ltac:(lia)) as B.
    change (inject_Z 1) with 1 in B. change (inject_Z 99) with 99 in B.
    py_cases; q_arith.
  - pose proof (ScorerFacts.inject_Z_bounds seats seats 0
                  ltac:(lia) ltac:(lia)) as B.
    change (inject_Z 0) with 0 in B. py_cases; lra.
Qed.

(** More active channels never score lower, a higher marketplace ratio
    never scores lower, and the bonus for a ratio above 3 is at most 20. *)
Theorem score_cross_channel_monotone (n m : Z) (r s : Q) :
  (n <= m)%Z -> r <= s ->
  _score_cross_channel n r <= _score_cross_channel m s
  /\ _score_cross_channel n s <= _score_cross_channel n r + 20.
Proof.
  intros Hn Hr. unfold _score_cross_channel.
  assert (inject_Z ((n - 1) * 40) <= inject_Z ((m - 1) * 40)) as B
      by (rewrite <- Zle_Qle; lia).
  set (a := inject_Z ((n - 1) * 40)) in *.
  set (b := inject_Z ((m - 1) * 40)) in *.
  split; py_cases; lra.
Qed.

Lemma score_cross_channel_monotone_witness :
  _score_cross_channel 2 1.0 <= _score_cross_channel 3 3.5.
Proof.
  apply (score_cross_channel_monotone 2 3 1.0 3.5); [lia | lra].
Defined.

Lemma score_growth_monotone_from_zero_witness :
  _score_growth 0.1 <= _score_growth 0.3
  /\ _score_growth 0.3 - _score_growth 0.1 <= 200 * (0.3 - 0.1).
Proof.
  apply (ScorerFacts.score_growth_monotone_from_zero 0.1 0.3); lra.
Defined.

(** Every category scorer stays in [0,100] on the documented domain of
    its input: the growth, model and seat scorers and the two logarithmic
    scorers for every input, the production-ratio, error-rate and user
    scorers for a non-negative input, and the cross-channel scorer from
    one active channel on. *)
Theorem category_scores_in_range (log10 : Q -> Q) :
  (forall spend max_spend : Q,
      0 <= _normalize_spend_log log10 spend max_spend <= 100)
  /\ (forall g : Q, 0 <= _score_growth g <= 100)
  /\ (forall n : Z, 0 <= _score_daily_requests log10 n <= 100)
  /\ (forall p : Q, 0 <= p -> 0 <= _score_prod_ratio p <= 100)
  /\ (forall e : Q, 0 <= e -> 0 <= _score_error_rate e <= 100)
  /\ (forall n : Z, 0 <= _score_model_diversity n <= 100)
  /\ (forall u : Z, (0 <= u)%Z -> 0 <= _score_domain_users u <= 100)
  /\ (forall s : Z, 0 <= _score_enterprise_seats s <= 100)
  /\ (forall (n : Z) (ratio : Q),
         (1 <= n)%Z -> 0 <= _score_cross_channel n ratio <= 100).
Proof.
  split; [intros; apply ScorerFacts.normalize_spend_log_range|].
  split; [apply ScorerFacts.score_growth_range|].
  split; [apply ScorerFacts.score_daily_requests_range|].
  split; [apply ScorerFacts.score_prod_ratio_range|].
  split; [apply ScorerFacts.score_error_rate_range|].
  split; [apply ScorerFacts.score_model_diversity_range|].
  split; [apply ScorerFacts.score_domain_users_range|].
  split; [apply ScorerFacts.score_enterprise_seats_range|].
  apply ScorerFacts.score_cross_channel_range.
Qed.

Lemma category_scores_in_range_witness :
  0 <= _score_prod_ratio 0.7 <= 100
  /\ 0 <= _score_error_rate 0.03 <= 100
  /\ 0 <= _score_domain_users 4 <= 100
  /\ 0 <= _score_cross_channel 2 5 <= 100.
Proof.
  destruct (category_scores_in_range Sample.log10_interp)
    as [_ [_ [_ [P [E [_ [U [_ C]]]]]]]].
  split; [apply (P 0.7); lra|].
  split; [apply (E 0.03); lra|].
  split; [apply (U 4%Z); lia|].
  apply (C 2%Z 5). lia.
Defined.

Section WithLog10.

Variable log10 : Q -> Q.

(** With a logarithm that is non-decreasing from 1 on and puts the floor
    of 500 below the ceiling, a higher spend never scores lower. *)
Theorem normalize_spend_log_monotone (max_spend x y : Q) :
  (forall a b : Q, 1 <= a -> a <= b -> log10 a <= log10 b) ->
  log10 500 < log10 max_spend ->
  x <= y ->
  _normalize_spend_log log10 x max_spend
  <= _normalize_spend_log log10 y max_spend.
Proof.
  intros Mono Span Hxy. unfold _normalize_spend_log.
  destruct (x <=? 0) eqn:Ex; destruct (y <=? 0) eqn:Ey.
  - lra.
  - set (v := _ / _ * 100). py_cases; lra.
  - apply leb_false in Ex. apply leb_true in Ey. lra.
  - apply leb_false in Ex. apply leb_false in Ey.
    assert (1 <= Py.max x 1) as Lx by (py_cases; lra).
    assert (Py.max x 1 <= Py.max y 1) as Lxy by (py_cases; lra).
    pose proof (Mono _ _ Lx Lxy) as L.
    set (lx := log10 (Py.max x 1)) in *.
    set (ly := log10 (Py.max y 1)) in *.
    assert (0 < / (log10 max_spend - log10 500)) as D
        by (apply Qinv_lt_0_compat; lra).
    unfold Qdiv.
    set (d := / (log10 max_spend - log10 500)) in *.
    assert ((lx - log10 500) * d <= (ly - log10 500) * d) as R by nra.
    set (vx := (lx - log10 500) * d) in *.
    set (vy := (ly - log10 500) * d) in *.
    py_cases; lra.
Qed.

(** With a logarithm that is non-decreasing from 1 on and positive at
    100000, more daily requests never score lower. *)
Theorem score_daily_requests_monotone (n m : Z) :
  (forall a b : Q, 1 <= a -> a <= b -> log10 a <= log10 b) ->
  0 < log10 100000 ->
  (n <= m)%Z ->
  _score_daily_requests log10 n <= _score_daily_requests log10 m.
Proof.
  intros Mono Pos Hnm. unfold _score_daily_requests.
  destruct (Z.leb_spec n 0) as [En | En];
    destruct (Z.leb_spec m 0) as [Em | Em]; try lia.
  - lra.
  - set (v := _ / _ * 100). py_cases; lra.
  - assert (1 <= inject_Z (Z.max n 1)) as Ln.
    { change 1 with (inject_Z 1). rewrite <- Zle_Qle. lia. }
    assert (inject_Z (Z.max n 1) <= inject_Z (Z.max m 1)) as Lnm
        by (rewrite <- Zle_Qle; lia).
    pose proof (Mono _ _ Ln Lnm) as L.
    set (ln := log10 (inject_Z (Z.max n 1))) in *.
    set (lm := log10 (inject_Z (Z.max m 1))) in *.
    assert (0 < / log10 100000) as D by (apply Qinv_lt_0_compat; lra).
    unfold Qdiv. set (d := / log10 100000) in *.
    assert (ln * d <= lm * d) as R by nra.
    set (vn := ln * d) in *. set (vm := lm * d) in *.
    py_cases; lra.
Qed.

End WithLog10.

Lemma log2_floor_monotone (a b : Q) :
  1 <= a -> a <= b -> Sample.log2_floor a <= Sample.log2_floor b.
Proof.
  intros _ H. unfold Sample.log2_floor. rewrite <- Zle_Qle.
  apply Z.log2_le_mono. apply Qfloor_resp_le. exact H.
Qed.

Lemma normalize_spend_log_monotone_witness :
  _normalize_spend_log Sample.log2_floor 2000 80000
  <= _normalize_spend_log Sample.log2_floor 30000 80000.
Proof.
  apply (normalize_spend_log_monotone Sample.log2_floor 80000 2000 30000).
  - exact log2_floor_monotone.
  - vm_compute. reflexivity.
  - lra.
Defined.

Lemma score_daily_requests_monotone_witness :
  _score_daily_requests Sample.log2_floor 50
  <= _score_daily_requests Sample.log2_floor 20000.
Proof.
  apply (score_daily_requests_monotone Sample.log2_floor 50 20000).
  - exact log2_floor_monotone.
  - vm_compute. reflexivity.
  - lia.
Defined.

End ScorerShape.

(* ------------------------------------------------------------------ *)
(** * More on the composite, the penalty and the stage *)

Module CompositeShape.

Import Scoring PyFacts RoundFacts.
Local Open Scope string_scope.
Local Open Scope Q_scope.

(** ** Rounding error *)

Lemma round_half_even_error (q : Q) :
  q - (1 # 2) <= inject_Z (Py.round_half_even q) <= q + (1 # 2).
Proof.
  unfold Py.round_half_even.
  pose proof (Qfloor_le q) as Lo. pose proof (Qlt_floor q) as Hi.
  rewrite inject_Z_plus in Hi. change (inject_Z 1) with 1 in Hi.
  destruct (Qcompare (q - inject_Z (Qfloor q)) (1 # 2)) eqn:C.
  - apply Qeq_alt in C.
    destruct (Z.even (Qfloor q));
      rewrite ?inject_Z_plus; change (inject_Z 1) with 1; lra.
  - apply Qlt_alt in C. lra.
  - apply Qgt_alt in C. rewrite inject_Z_plus. change (inject_Z 1) with 1.
    lra.
Qed.

(** A number rounded to one decimal moves by at most 0.05. *)
Lemma round1_error (x : Q) : x - 0.05 <= Py.round x 1 <= x + 0.05.
Proof.
  unfold Py.round. change (inject_Z (10 ^ Z.of_nat 1)) with 10.
  pose proof (round_half_even_error (x * 10)) as [Lo Hi].
  set (r := inject_Z (Py.round_half_even (x * 10))) in *. q_arith.
Qed.

(** ** The composite *)

Lemma category_scores_at_most_100 :
  (forall g, _score_growth g <= 100)
  /\ (forall p, _score_prod_ratio p <= 100)
  /\ (forall e, _score_error_rate e <= 100)
  /\ (forall n, _score_model_diversity n <= 100)
  /\ (forall u, _score_domain_users u <= 100)
  /\ (forall s, _score_enterprise_seats s <= 100)
  /\ (forall n r, _score_cross_channel n r <= 100).
Proof.
  repeat split.
  - intro g. unfold _score_growth. py_cases; q_arith.
  - intro p. unfold _score_prod_ratio. py_cases; q_arith.
  - intro e. unfold _score_error_rate. py_cases; simpl; py_cases; q_arith.
  - intro n. unfold _score_model_diversity. ScorerFacts.z_cases; lra.
  - intro u. unfold _score_domain_users. ScorerFacts.z_cases; [lra|].
    pose proof (ScorerFacts.inject_Z_bounds u u 9 ltac:(lia) ltac:(lia)) as B.
    change (inject_Z 9) with 9 in B. q_arith.
  - intro s. unfold _score_enterprise_seats. ScorerFacts.z_cases; try lra.
    set (v := inject_Z s / 100 * 100). py_cases; lra.
  - intros n r. unfold _score_cross_channel.
    set (b := inject_Z ((n - 1) * 40)). py_cases; lra.
Qed.

Lemma risk_penalty_nonneg (d : Z) (g : Q) (n : Z) :
  0 <= _compute_risk_penalty d g n.
Proof.
  unfold _compute_risk_penalty.
  pose proof (ScorerFacts.Qabs_of_negative_scaled g) as A.
  set (decline := Qabs g * 20) in *.
  ScorerFacts.z_cases; try lia.
  all: try (pose proof (ScorerFacts.inject_Z_bounds (d - 7) 0 7
                          ltac:(lia) ltac:(lia)) as B;
            change (inject_Z 0) with 0 in B;
            change (inject_Z 7) with 7 in B;
            set (idle := inject_Z (d - 7)) in * ).
  all: py_cases; q_arith.
Qed.

Section WithLog10.

Variable log10 : Q -> Q.

(** The composite never exceeds 90, whatever the row holds: the four
    category weights add up to 0.90 and the penalty only subtracts. *)
Theorem total_score_at_most_90 (row : Row) :
  total_score log10 row <= 90
  /\ conversion_score (score_account log10 row) <= 90.
Proof.
  assert (total_score log10 row <= 90) as T.
  { destruct category_scores_at_most_100 as [G [P [E [M [U [S C]]]]]].
    unfold total_score, raw_score, usage_intensity, production_maturity,
      team_adoption, cross_channel, row_risk_penalty.
    cbv zeta.
    pose proof (ScorerFacts.normalize_spend_log_range
                  log10 (latest_total_spend row) 80000) as [_ Sp].
    pose proof (ScorerFacts.score_daily_requests_range
                  log10 (daily_requests row)) as [_ Rq].
    pose proof (G (row_growth row)). pose proof (P (prod_ratio row)).
    pose proof (E (error_rate row)). pose proof (M (n_models row)).
    pose proof (U (unique_users row)). pose proof (S (enterprise_seats row)).
    pose proof (C (row_channels row) (marketplace_to_direct row)).
    pose proof (risk_penalty_nonneg (days_inactive row) (row_growth row)
                                    (n_models row)).
    set (a := _normalize_spend_log _ _ _) in *.
    set (b := _score_growth _) in *.
    set (c := _score_daily_requests _ _) in *.
    set (d := _score_prod_ratio _) in *.
    set (e := _score_error_rate _) in *.
    set (f := _score_model_diversity _) in *.
    set (g := _score_domain_users _) in *.
    set (h := _score_enterprise_seats _) in *.
    set (i := _score_cross_channel _ _) in *.
    set (j := _compute_risk_penalty _ _ _) in *.
    py_cases; lra. }
  split; [exact T|].
  simpl conversion_score. apply (round_upper _ 1 90). exact T.
Qed.

(** The returned score is within 0.05 of the unrounded composite. *)
Theorem conversion_score_within_rounding (row : Row) :
  total_score log10 row - 0.05
  <= conversion_score (score_account log10 row)
  <= total_score log10 row + 0.05.
Proof. simpl conversion_score. apply round1_error. Qed.

Lemma first_stage_same_comparisons (l : list (Q * string)) (s t : Q)
      (default : string) :
  Forall (fun entry => fst entry <= s <-> fst entry <= t) l ->
  first_stage l s default = first_stage l t default.
Proof.
  induction 1 as [| [threshold name] l H _ IH]; [reflexivity|].
  simpl in *.
  destruct (s >=? threshold) eqn:Es; destruct (t >=? threshold) eqn:Et;
    try reflexivity; try exact IH.
  - apply geb_true in Es. apply geb_false in Et. apply H in Es. lra.
  - apply geb_false in Es. apply geb_true in Et. apply H in Et. lra.
Qed.

(** The stage that the thresholds give to the returned (rounded) score is
    the returned stage, unless the unrounded composite lies under one of
    the thresholds t = 33, 48, 63, 78 by 0.05 or less: t - 0.05 <= composite
    < t. *)
Theorem returned_stage_matches_returned_score (row : Row) :
  (forall t : Z,
      In t [33; 48; 63; 78]%Z ->
      ~ (inject_Z t - 0.05 <= total_score log10 row
         /\ total_score log10 row < inject_Z t)) ->
  assign_stage (conversion_score (score_account log10 row))
  = stage (score_account log10 row).
Proof.
  intro Far. simpl conversion_score. simpl stage. unfold assign_stage.
  pose proof (round1_error (total_score log10 row)) as [Lo Hi].
  pose proof (CompositeFacts.total_score_range log10 row) as [T0 _].
  assert (forall t : Z,
             In t [33; 48; 63; 78]%Z ->
             inject_Z t <= Py.round (total_score log10 row) 1
             <-> inject_Z t <= total_score log10 row) as Same.
  { intros t Ht. split; intro H.
    - destruct (Qlt_le_dec (total_score log10 row) (inject_Z t)) as [B | B];
        [| exact B].
      exfalso. apply (Far t Ht). split; [lra | exact B].
    - apply round_lower. exact H. }
  apply first_stage_same_comparisons. unfold STAGE_THRESHOLDS.
  constructor; [apply (Same 78%Z); simpl; tauto|].
  constructor; [apply (Same 63%Z); simpl; tauto|].
  constructor; [apply (Same 48%Z); simpl; tauto|].
  constructor; [apply (Same 33%Z); simpl; tauto|].
  constructor; [| constructor].
  simpl. split; intros _; [exact T0 | apply (round_lower _ 1 0); exact T0].
Qed.

End WithLog10.

Lemma returned_stage_matches_returned_score_witness :
  assign_stage
    (conversion_score
       (score_account Sample.log10_interp Sample.saturated_row))
  = stage (score_account Sample.log10_interp Sample.saturated_row).
Proof.
  apply (returned_stage_matches_returned_score
           Sample.log10_interp Sample.saturated_row).
  intros t Ht [Lo Hi].
  simpl in Ht.
  destruct Ht as [<- | [<- | [<- | [<- | []]]]];
    vm_compute in Lo; vm_compute in Hi; congruence.
Defined.

(** ** Risk penalty *)

Lemma risk_penalty_as_terms (d : Z) (g : Q) (n : Z) :
  _compute_risk_penalty d g n
  == Py.min 10 (Spec.inactivity_term d + Spec.decline_term g
                + Spec.single_model_term n).
Proof.
  unfold _compute_risk_penalty, Spec.inactivity_term, Spec.decline_term,
    Spec.single_model_term.
  pose proof (ScorerFacts.Qabs_of_negative_scaled g) as A.
  set (decline := Qabs g * 20) in *.
  destruct (Q.min_spec 4.0 decline) as [[L Em] | [L Em]];
    set (capped := Qmin 4.0 decline) in *.
  all: destruct (Z_lt_dec 14 d) as [D14 | D14];
    [| destruct (Z_lt_dec 7 d) as [D7 | D7]];
    destruct (Qlt_le_dec g 0) as [G | G];
    destruct (Z_le_dec n 1) as [M | M];
    ScorerFacts.z_cases; try lia.
  all: try (pose proof (ScorerFacts.inject_Z_bounds (d - 7) 0 7
                          ltac:(lia) ltac:(lia)) as B;
            change (inject_Z 0) with 0 in B;
            change (inject_Z 7) with 7 in B;
            set (idle := inject_Z (d - 7)) in * ).
  all: py_cases; q_arith.
Qed.

Lemma inactivity_term_monotone (d1 d2 : Z) :
  (d1 <= d2)%Z -> Spec.inactivity_term d1 <= Spec.inactivity_term d2.
Proof.
  intro H. unfold Spec.inactivity_term.
  destruct (Z_lt_dec 14 d1); destruct (Z_lt_dec 14 d2); try lia;
    destruct (Z_lt_dec 7 d1); destruct (Z_lt_dec 7 d2); try lia; try lra.
  all: try (pose proof (ScorerFacts.inject_Z_bounds (d1 - 7) 0 (d2 - 7)
                          ltac:(lia) ltac:(lia)) as B1;
            change (inject_Z 0) with 0 in B1).
  all: try (pose proof (ScorerFacts.inject_Z_bounds (d2 - 7) 0 7
                          ltac:(lia) ltac:(lia)) as B2;
            change (inject_Z 0) with 0 in B2;
            change (inject_Z 7) with 7 in B2).
  all: try (pose proof (ScorerFacts.inject_Z_bounds (d1 - 7) 0 7
                          ltac:(lia) ltac:(lia)) as B3;
            change (inject_Z 0) with 0 in B3;
            change (inject_Z 7) with 7 in B3).
  all: q_arith.
Qed.

Lemma decline_term_antitone (g1 g2 : Q) :
  g2 <= g1 -> Spec.decline_term g1 <= Spec.decline_term g2.
Proof.
  intro H. unfold Spec.decline_term.
  destruct (Qlt_le_dec g1 0) as [N1 | N1];
    destruct (Qlt_le_dec g2 0) as [N2 | N2]; try lra.
  - rewrite (Qabs_neg g1) by lra. rewrite (Qabs_neg g2) by lra.
    destruct (Q.min_spec 4.0 (- g1 * 20)) as [[L1 ->] | [L1 ->]];
      destruct (Q.min_spec 4.0 (- g2 * 20)) as [[L2 ->] | [L2 ->]]; lra.
  - rewrite (Qabs_neg g2) by lra.
    destruct (Q.min_spec 4.0 (- g2 * 20)) as [[L2 ->] | [L2 ->]]; lra.
Qed.

Lemma single_model_term_antitone (n1 n2 : Z) :
  (n2 <= n1)%Z -> Spec.single_model_term n1 <= Spec.single_model_term n2.
Proof.
  intro H. unfold Spec.single_model_term.
  destruct (Z_le_dec n1 1); destruct (Z_le_dec n2 1); try lia; lra.
Qed.

(** More idle days, a lower growth rate and fewer models never lower the
    risk penalty. *)
Theorem risk_penalty_monotone (d1 d2 : Z) (g1 g2 : Q) (n1 n2 : Z) :
  (d1 <= d2)%Z -> g2 <= g1 -> (n2 <= n1)%Z ->
  _compute_risk_penalty d1 g1 n1 <= _compute_risk_penalty d2 g2 n2.
Proof.
  intros Hd Hg Hn. rewrite !risk_penalty_as_terms.
  pose proof (inactivity_term_monotone d1 d2 Hd).
  pose proof (decline_term_antitone g1 g2 Hg).
  pose proof (single_model_term_antitone n1 n2 Hn).
  set (s1 := Spec.inactivity_term d1 + _ + _) in *.
  set (s2 := Spec.inactivity_term d2 + _ + _) in *.
  assert (s1 <= s2) by (unfold s1, s2; lra).
  py_cases; lra.
Qed.

Lemma risk_penalty_monotone_witness :
  _compute_risk_penalty 3 0.2 3 <= _compute_risk_penalty 10 (-0.1) 1.
Proof.
  apply (risk_penalty_monotone 3 10 0.2 (-0.1) 3 1); [lia | lra | lia].
Defined.

(** ** Stage order *)

(** A higher composite never gets a lower stage. *)
Theorem assign_stage_monotone (s t : Q) :
  s <= t ->
  (Spec.stage_rank (assign_stage s) <= Spec.stage_rank (assign_stage t))%nat.
Proof.
  intro H.
  destruct (Qlt_le_dec s 33) as [S1 | S1];
    [rewrite (StageFacts.stage_at_risk s S1); apply Nat.le_0_l|].
  destruct (Qlt_le_dec s 48) as [S2 | S2].
  { rewrite (StageFacts.stage_nurture s S1 S2).
    destruct (Qlt_le_dec t 48) as [T2 | T2];
      [rewrite (StageFacts.stage_nurture t) by lra; vm_compute; lia|].
    destruct (Qlt_le_dec t 63) as [T3 | T3];
      [rewrite (StageFacts.stage_qualified t) by lra; vm_compute; lia|].
    destruct (Qlt_le_dec t 78) as [T4 | T4];
      [rewrite (StageFacts.stage_high_velocity t) by lra; vm_compute; lia|].
    rewrite (StageFacts.stage_enterprise_ready t) by lra. vm_compute. lia. }
  destruct (Qlt_le_dec s 63) as [S3 | S3].
  { rewrite (StageFacts.stage_qualified s S2 S3).
    destruct (Qlt_le_dec t 63) as [T3 | T3];
      [rewrite (StageFacts.stage_qualified t) by lra; vm_compute; lia|].
    destruct (Qlt_le_dec t 78) as [T4 | T4];
      [rewrite (StageFacts.stage_high_velocity t) by lra; vm_compute; lia|].
    rewrite (StageFacts.stage_enterprise_ready t) by lra. vm_compute. lia. }
  destruct (Qlt_le_dec s 78) as [S4 | S4].
  { rewrite (StageFacts.stage_high_velocity s S3 S4).
    destruct (Qlt_le_dec t 78) as [T4 | T4];
      [rewrite (StageFacts.stage_high_velocity t) by lra; vm_compute; lia|].
    rewrite (StageFacts.stage_enterprise_ready t) by lra. vm_compute. lia. }
  rewrite (StageFacts.stage_enterprise_ready s S4).
  rewrite (StageFacts.stage_enterprise_ready t) by lra. vm_compute. lia.
Qed.

Lemma assign_stage_monotone_witness :
  (Spec.stage_rank (assign_stage 40) <= Spec.stage_rank (assign_stage 70))%nat.
Proof.
  apply (assign_stage_monotone 40 70). lra.
Defined.

End CompositeShape.

(* ------------------------------------------------------------------ *)
(** * The explanation of the recommended action *)

Module ExplanationFacts.

Import Scoring PyFacts.
Local Open Scope string_scope.
Local Open Scope list_scope.
Local Open Scope Q_scope.









End ExplanationFacts.

(* ------------------------------------------------------------------ *)
(** * Scoring a whole frame *)

Module BatchFacts.

Import Batch.
Local Open Scope string_scope.
Local Open Scope list_scope.

Section Merge.

Context {A B : Type}.
Variable key_left : A -> string.
Variable key_right : B -> string.
Variable f : A -> B.
Hypothesis same_key : forall a : A, key_right (f a) = key_left a.

Lemma matches_counted (k : string) (l : list A) :
  List.length (filter (fun b => key_right b =? k) (map f l))
  = count_occ string_dec (map key_left l) k.
Proof.
  induction l as [| x l IH]; [reflexivity|].
  simpl. rewrite same_key.
  destruct (String.eqb_spec (key_left x) k) as [E | N];
    destruct (string_dec (key_left x) k) as [E' | N']; try congruence.
  simpl. rewrite IH. reflexivity.
Qed.

Lemma matches_come_from_rows (k : string) (l : list A) (b : B) :
  In b (filter (fun b => key_right b =? k) (map f l)) ->
  exists a : A, In a l /\ key_left a = k /\ b = f a.
Proof.
  intro H. apply filter_In in H. destruct H as [Hin Hk].
  apply in_map_iff in Hin. destruct Hin as [a [<- Ha]].
  exists a. split; [exact Ha|]. split; [| reflexivity].
  rewrite same_key in Hk. apply String.eqb_eq. exact Hk.
Qed.

Lemma merge_left_on_length (rows part : list A) :
  incl part rows ->
  List.length (Pandas.merge_left_on key_left key_right part (map f rows))
  = list_sum
      (map (fun a => count_occ string_dec (map key_left rows) (key_left a))
           part).
Proof.
  unfold Pandas.merge_left_on.
  induction part as [| a part IH]; intro Sub; [reflexivity|].
  cbn [flat_map]. rewrite map_cons.
  rewrite length_app, IH by (intros x Hx; apply Sub; right; exact Hx).
  change (list_sum (?x :: ?l)) with (x + list_sum l)%nat.
  f_equal.
  pose proof (matches_counted (key_left a) rows) as C.
  assert (In a rows) as Ha by (apply Sub; left; reflexivity).
  assert (count_occ string_dec (map key_left rows) (key_left a) > 0)%nat as P.
  { apply count_occ_In. apply in_map. exact Ha. }
  destruct (filter _ (map f rows)) as [| b matches] eqn:F.
  - simpl in C. lia.
  - rewrite length_map. exact C.
Qed.

Lemma merge_left_on_rows (rows part : list A) (a : A) (o : option B) :
  incl part rows ->
  In (a, o) (Pandas.merge_left_on key_left key_right part (map f rows)) ->
  In a part
  /\ exists a' : A, In a' rows /\ key_left a' = key_left a /\ o = Some (f a').
Proof.
  unfold Pandas.merge_left_on. intros Sub H.
  apply in_flat_map in H. destruct H as [x [Hx H]].
  assert (In x rows) as Hrows by (apply Sub; exact Hx).
  destruct (filter (fun b => key_right b =? key_left x) (map f rows))
    as [| b matches] eqn:F.
  - exfalso.
    assert (In (f x) (filter (fun b => key_right b =? key_left x)
                             (map f rows))) as I.
    { apply filter_In. split; [apply in_map; exact Hrows|].
      rewrite same_key. apply String.eqb_refl. }
    rewrite F in I. exact I.
  - apply in_map_iff in H. destruct H as [b' [E Hb']].
    injection E as -> <-.
    split; [exact Hx|].
    rewrite <- F in Hb'. apply matches_come_from_rows in Hb'.
    destruct Hb' as [a' [Ha' [Ka' ->]]].
    exists a'. split; [exact Ha'|]. split; [exact Ka' | reflexivity].
Qed.

Lemma unique_match (l : list A) (a : A) :
  NoDup (map key_left l) -> In a l ->
  filter (fun b => key_right b =? key_left a) (map f l) = [f a].
Proof.
  induction l as [| x l IH]; intros ND Ha; [contradiction|].
  inversion ND as [| ? ? Hx ND']; subst.
  simpl. rewrite same_key.
  destruct (String.eqb_spec (key_left x) (key_left a)) as [E | N].
  - assert (a = x) as ->.
    { destruct Ha as [-> | Ha]; [reflexivity|].
      exfalso. apply Hx. rewrite E. apply in_map. exact Ha. }
    f_equal.
    pose proof (matches_counted (key_left x) l) as C.
    rewrite (proj1 (count_occ_not_In string_dec _ _) Hx) in C.
    apply length_zero_iff_nil. exact C.
  - destruct Ha as [-> | Ha]; [congruence|].
    apply IH; assumption.
Qed.

Lemma merge_left_on_unique (rows part : list A) :
  NoDup (map key_left rows) -> incl part rows ->
  Pandas.merge_left_on key_left key_right part (map f rows)
  = map (fun a => (a, Some (f a))) part.
Proof.
  intros ND. unfold Pandas.merge_left_on.
  induction part as [| a part IH]; intro Sub; [reflexivity|].
  cbn [flat_map]. rewrite map_cons.
  rewrite (unique_match rows a ND) by (apply Sub; left; reflexivity).
  cbn [map app]. f_equal. apply IH. intros x Hx. apply Sub. right. exact Hx.
Qed.

Lemma matches_are_mapped (k : string) (l : list A) :
  filter (fun b => key_right b =? k) (map f l)
  = map f (filter (fun a => key_left a =? k) l).
Proof.
  induction l as [| x l IH]; [reflexivity|].
  simpl. rewrite same_key.
  destruct (key_left x =? k); simpl; rewrite IH; reflexivity.
Qed.

Lemma merge_left_on_is_self_join (rows part : list A) :
  incl part rows ->
  Pandas.merge_left_on key_left key_right part (map f rows)
  = flat_map
      (fun row =>
         map (fun other => (row, Some (f other)))
             (filter (fun other => key_left other =? key_left row) rows))
      part.
Proof.
  unfold Pandas.merge_left_on.
  induction part as [| a part IH]; intro Sub; [reflexivity|].
  cbn [flat_map].
  rewrite IH by (intros x Hx; apply Sub; right; exact Hx).
  f_equal. rewrite matches_are_mapped.
  assert (In a (filter (fun other => key_left other =? key_left a) rows))
    as Own.
  { apply filter_In. split; [apply Sub; left; reflexivity|].
    apply String.eqb_refl. }
  destruct (filter (fun other => key_left other =? key_left a) rows)
    as [| o others]; [contradiction|].
  cbn [map]. f_equal. rewrite map_map. reflexivity.
Qed.

Lemma own_block_counted (rows : list A) (row : A) :
  In row rows ->
  (1 <= List.length
          (filter (fun other => String.eqb (key_left other) (key_left row)) rows))%nat
  /\ List.length (filter (fun other => String.eqb (key_left other) (key_left row)) rows)
     = count_occ string_dec (map key_left rows) (key_left row).
Proof.
  intro H.
  assert (List.length
            (filter (fun other => String.eqb (key_left other) (key_left row)) rows)
          = count_occ string_dec (map key_left rows) (key_left row)) as C.
  { rewrite <- matches_counted, matches_are_mapped, length_map.
    reflexivity. }
  split; [| exact C].
  rewrite C.
  assert (count_occ string_dec (map key_left rows) (key_left row) > 0)%nat
    by (apply count_occ_In; apply in_map; exact H).
  lia.
Qed.

End Merge.

Section WithLog10.

Variable log10 : Q -> Q.

Lemma score_records_nonempty (enriched_df : list IdRow) :
  enriched_df <> [] ->
  score_all_accounts log10 enriched_df
  = Pandas.Returned
      (Pandas.merge_left_on fst fst enriched_df
                            (score_records log10 enriched_df)).
Proof.
  intro NE. unfold score_all_accounts.
  destruct (score_records log10 enriched_df) as [| s0 rest] eqn:M.
  - unfold score_records in M. apply map_eq_nil in M. contradiction.
  - reflexivity.
Qed.

(** With one row per account identifier and at least one row, scoring a
    frame gives one scored row per account, in the order of the input,
    each account with the scores of its own row.  A frame without rows
    makes the merge raise [KeyError]. *)
Theorem score_all_accounts_one_per_account (enriched_df : list IdRow) :
  NoDup (map fst enriched_df) -> enriched_df <> [] ->
  score_all_accounts log10 enriched_df
  = Pandas.Returned
      (map (fun row =>
              (row, Some (fst row, Scoring.score_account log10 (snd row))))
           enriched_df)
  /\ score_all_accounts log10 [] = Pandas.KeyError "account_id".
Proof.
  intros ND NE. split; [| reflexivity].
  rewrite (score_records_nonempty enriched_df NE). f_equal.
  unfold score_records.
  apply (merge_left_on_unique
           fst fst
           (fun row : IdRow =>
              (fst row, Scoring.score_account log10 (snd row)))).
  - reflexivity.
  - exact ND.
  - apply incl_refl.
Qed.

(** Whatever the identifiers of a frame with at least one row are, scoring
    it returns the self-join of the frame on the identifier: for every
    input row, in order, one output row for each input row that shares its
    identifier, carrying the scores of that row.  So every input row comes
    out as often as its identifier occurs in the frame, at least once. *)
Theorem score_all_accounts_rows (enriched_df : list IdRow) :
  enriched_df <> [] ->
  score_all_accounts log10 enriched_df
  = Pandas.Returned
      (Spec.self_join
         fst
         (fun row : IdRow => (fst row, Scoring.score_account log10 (snd row)))
         enriched_df)
  /\ (forall row : IdRow,
         In row enriched_df ->
         (1 <= List.length
                 (filter (fun other : IdRow => String.eqb (fst other) (fst row))
                         enriched_df))%nat
         /\ List.length
              (filter (fun other : IdRow => String.eqb (fst other) (fst row))
                      enriched_df)
            = count_occ string_dec (map fst enriched_df) (fst row)).
Proof.
  intro NE. split.
  - rewrite (score_records_nonempty enriched_df NE). f_equal.
    unfold score_records, Spec.self_join.
    apply (merge_left_on_is_self_join
             fst fst
             (fun row : IdRow =>
                (fst row, Scoring.score_account log10 (snd row)))
             (fun _ => Logic.eq_refl) enriched_df enriched_df
             (incl_refl _)).
  - intros row H.
    apply (own_block_counted
             fst fst
             (fun row : IdRow =>
                (fst row, Scoring.score_account log10 (snd row)))
             (fun _ => Logic.eq_refl) enriched_df row H).
Qed.

End WithLog10.

Lemma score_all_accounts_one_per_account_witness :
  exists scored,
    score_all_accounts Sample.log10_interp Sample.scoring_frame
    = Pandas.Returned scored
    /\ map fst scored = Sample.scoring_frame.
Proof.
  eexists. split.
  - apply (score_all_accounts_one_per_account
             Sample.log10_interp Sample.scoring_frame).
    + simpl. repeat constructor; simpl; intuition discriminate.
    + discriminate.
  - reflexivity.
Defined.

Lemma score_all_accounts_rows_witness :
  exists scored,
    score_all_accounts Sample.log10_interp Sample.duplicated_frame
    = Pandas.Returned scored
    /\ List.length scored = 5%nat.
Proof.
  eexists. split.
  - apply (score_all_accounts_rows
             Sample.log10_interp Sample.duplicated_frame).
    discriminate.
  - reflexivity.
Defined.

End BatchFacts.

(* ------------------------------------------------------------------ *)
(** * More on the signals *)

Module SignalShape.

Import Signals PyFacts.
Local Open Scope string_scope.
Local Open Scope list_scope.
Local Open Scope Q_scope.

(** ** Channels *)

(** The number of active channels is between 0 and 4; it is 0 exactly when
    no channel has a positive spend and 4 exactly when all four have. *)
Theorem active_channels_range (c : ChannelSpend) :
  (0 <= active_channels c <= 4)%Z
  /\ (active_channels c = 0%Z
      <-> direct c <= 0 /\ bedrock c <= 0 /\ vertex c <= 0 /\ seats c <= 0)
  /\ (active_channels c = 4%Z
      <-> 0 < direct c /\ 0 < bedrock c /\ 0 < vertex c /\ 0 < seats c).
Proof.
  unfold active_channels.
  destruct (direct c >? 0) eqn:D; destruct (bedrock c >? 0) eqn:B;
    destruct (vertex c >? 0) eqn:V; destruct (seats c >? 0) eqn:S;
    rewrite ?gtb_true, ?gtb_false in *;
    cbn; (split; [lia|]); split; split;
    try discriminate; try (intros; exfalso; lra);
    try (intros; repeat split; assumption); try reflexivity.
Qed.

Lemma no_row_of_unknown_account (accounts_df : list AccountRecord)
      (aid : string) :
  ~ In aid (map account_id accounts_df) ->
  filter (fun r => account_id r =? aid) accounts_df = [].
Proof.
  induction accounts_df as [| r l IH]; intro H; [reflexivity|].
  simpl in *.
  destruct (String.eqb_spec (account_id r) aid) as [E | N]; [tauto|].
  apply IH. tauto.
Qed.

Lemma own_row_found (accounts_df : list AccountRecord) (a : AccountRecord) :
  NoDup (map account_id accounts_df) -> In a accounts_df ->
  exists rest : list AccountRecord,
    filter (fun r => account_id r =? account_id a) accounts_df = a :: rest.
Proof.
  induction accounts_df as [| r l IH]; intros ND Ha; [contradiction|].
  inversion ND as [| ? ? Hr ND']; subst. simpl.
  destruct (String.eqb_spec (account_id r) (account_id a)) as [E | N].
  - destruct Ha as [-> | Ha]; [eexists; reflexivity|].
    exfalso. apply Hr. rewrite E. apply in_map. exact Ha.
  - destruct Ha as [-> | Ha]; [congruence|]. apply IH; assumption.
Qed.

Lemma signal_reads_own_spend (accounts_df : list AccountRecord)
      (monthly_usage_df : list UsageRow) (a : AccountRecord) :
  NoDup (map account_id accounts_df) -> In a accounts_df ->
  let s := signal_of accounts_df monthly_usage_df a in
  signal_account_id s = account_id a
  /\ channel_direct s = latest_direct_spend a
  /\ channel_bedrock s = latest_bedrock_spend a
  /\ channel_vertex s = latest_vertex_spend a
  /\ channel_seats s = latest_seat_spend a
  /\ n_active_channels s = active_channels (Spec.own_spend a).
Proof.
  intros ND Ha. cbv zeta. unfold signal_of. cbv zeta. simpl.
  unfold compute_cross_channel_spend.
  destruct (own_row_found accounts_df a ND Ha) as [rest ->].
  repeat split; reflexivity.
Qed.

Lemma unknown_account_has_no_spend (accounts_df : list AccountRecord)
      (aid : string) :
  ~ In aid (map account_id accounts_df) ->
  compute_cross_channel_spend accounts_df aid
  = {| direct := 0; bedrock := 0; vertex := 0; seats := 0; total := 0 |}
  /\ active_channels (compute_cross_channel_spend accounts_df aid) = 0%Z.
Proof.
  intro H. unfold compute_cross_channel_spend.
  rewrite (no_row_of_unknown_account accounts_df aid H).
  split; reflexivity.
Qed.

(** With one row per account identifier, the channel columns of an
    account's signal row are that account's own spends and its number of
    active channels counts its own positive spends.  An identifier that
    is not in the frame gets the all-zero spend dictionary, and so 0
    active channels. *)
Theorem channel_spend_lookup (accounts_df : list AccountRecord)
        (monthly_usage_df : list UsageRow) :
  (NoDup (map account_id accounts_df) ->
   forall a : AccountRecord,
     In a accounts_df ->
     let s := signal_of accounts_df monthly_usage_df a in
     signal_account_id s = account_id a
     /\ channel_direct s = latest_direct_spend a
     /\ channel_bedrock s = latest_bedrock_spend a
     /\ channel_vertex s = latest_vertex_spend a
     /\ channel_seats s = latest_seat_spend a
     /\ n_active_channels s = active_channels (Spec.own_spend a))
  /\ (forall aid : string,
         ~ In aid (map account_id accounts_df) ->
         compute_cross_channel_spend accounts_df aid
         = {| direct := 0; bedrock := 0; vertex := 0; seats := 0;
              total := 0 |}
         /\ active_channels (compute_cross_channel_spend accounts_df aid)
            = 0%Z).
Proof.
  split.
  - intros ND a Ha. apply signal_reads_own_spend; assumption.
  - intros aid H. apply unknown_account_has_no_spend. exact H.
Qed.

Lemma channel_spend_lookup_witness :
  n_active_channels
    (signal_of [Sample.idle_account; Sample.growing_account]
               Sample.growing_history Sample.growing_account)
  = 2%Z
  /\ active_channels
       (compute_cross_channel_spend
          [Sample.idle_account; Sample.growing_account] "ACC-4242")
     = 0%Z.
Proof.
  destruct (channel_spend_lookup
              [Sample.idle_account; Sample.growing_account]
              Sample.growing_history) as [Own Unknown].
  split.
  - refine (Logic.eq_trans
              (proj2 (proj2 (proj2 (proj2 (proj2
                 (Own _ Sample.growing_account _))))))
              _).
    + simpl. repeat constructor; simpl; intuition discriminate.
    + simpl. tauto.
    + reflexivity.
  - apply (Unknown "ACC-4242"). simpl. intuition discriminate.
Defined.

(** ** Single-signal lookups *)

Lemma no_behavior_row (accounts_df : list BehaviorRow) (aid : string) :
  ~ In aid (map behavior_account_id accounts_df) ->
  rows_of accounts_df aid = [].
Proof.
  unfold rows_of.
  induction accounts_df as [| r l IH]; intro H; [reflexivity|].
  simpl in *.
  destruct (String.eqb_spec (behavior_account_id r) aid) as [E | N];
    [tauto|].
  apply IH. tauto.
Qed.

Lemma first_behavior_row (accounts_df : list BehaviorRow) (r : BehaviorRow) :
  NoDup (map behavior_account_id accounts_df) -> In r accounts_df ->
  exists rest : list BehaviorRow,
    rows_of accounts_df (behavior_account_id r) = r :: rest.
Proof.
  unfold rows_of.
  induction accounts_df as [| x l IH]; intros ND Hr; [contradiction|].
  inversion ND as [| ? ? Hx ND']; subst. simpl.
  destruct (String.eqb_spec (behavior_account_id x) (behavior_account_id r))
    as [E | N].
  - destruct Hr as [-> | Hr]; [eexists; reflexivity|].
    exfalso. apply Hx. rewrite E. apply in_map. exact Hr.
  - destruct Hr as [-> | Hr]; [congruence|]. apply IH; assumption.
Qed.

Lemma unknown_account_signal_defaults (accounts_df : list BehaviorRow)
      (aid : string) :
  ~ In aid (map behavior_account_id accounts_df) ->
  compute_production_ratio accounts_df aid = 0
  /\ compute_model_diversity accounts_df aid = 0%Z
  /\ compute_domain_users accounts_df aid = 0%Z
  /\ compute_days_inactive accounts_df aid = 999%Z.
Proof.
  intro H.
  unfold compute_production_ratio, compute_model_diversity,
    compute_domain_users, compute_days_inactive.
  rewrite (no_behavior_row accounts_df aid H).
  repeat split; reflexivity.
Qed.

Lemma known_account_signals (accounts_df : list BehaviorRow)
      (r : BehaviorRow) :
  NoDup (map behavior_account_id accounts_df) -> In r accounts_df ->
  compute_production_ratio accounts_df (behavior_account_id r) = prod_ratio r
  /\ compute_model_diversity accounts_df (behavior_account_id r) = n_models r
  /\ compute_domain_users accounts_df (behavior_account_id r)
     = unique_users r
  /\ compute_days_inactive accounts_df (behavior_account_id r)
     = days_inactive r.
Proof.
  intros ND Hr.
  unfold compute_production_ratio, compute_model_diversity,
    compute_domain_users, compute_days_inactive.
  destruct (first_behavior_row accounts_df r ND Hr) as [rest ->].
  repeat split; reflexivity.
Qed.

(** For an identifier that is not in the frame the single-signal helpers
    return their defaults: production ratio 0, no model, no user, and 999
    days of inactivity.  With one row per account identifier they return
    the columns of the account's own row. *)
Theorem single_signal_lookups (accounts_df : list BehaviorRow) :
  (forall aid : string,
      ~ In aid (map behavior_account_id accounts_df) ->
      compute_production_ratio accounts_df aid = 0
      /\ compute_model_diversity accounts_df aid = 0%Z
      /\ compute_domain_users accounts_df aid = 0%Z
      /\ compute_days_inactive accounts_df aid = 999%Z)
  /\ (NoDup (map behavior_account_id accounts_df) ->
      forall r : BehaviorRow,
        In r accounts_df ->
        compute_production_ratio accounts_df (behavior_account_id r)
        = prod_ratio r
        /\ compute_model_diversity accounts_df (behavior_account_id r)
           = n_models r
        /\ compute_domain_users accounts_df (behavior_account_id r)
           = unique_users r
        /\ compute_days_inactive accounts_df (behavior_account_id r)
           = days_inactive r).
Proof.
  split.
  - intros aid H. apply unknown_account_signal_defaults. exact H.
  - intros ND r Hr. apply known_account_signals; assumption.
Qed.

Lemma single_signal_lookups_witness :
  compute_days_inactive Sample.behavior_frame "ACC-4242" = 999%Z
  /\ compute_days_inactive Sample.behavior_frame "ACC-1002" = 21%Z.
Proof.
  destruct (single_signal_lookups Sample.behavior_frame) as [Unknown Known].
  split.
  - apply (Unknown "ACC-4242"). simpl. intuition discriminate.
  - refine (proj2 (proj2 (proj2
              (Known _ {| behavior_account_id := "ACC-1002";
                          prod_ratio := 0.3;
                          n_models := 1;
                          unique_users := 2;
                          days_inactive := 21 |} _)))).
    + simpl. repeat constructor; simpl; intuition discriminate.
    + simpl. tauto.
Defined.

End SignalShape.

(* ------------------------------------------------------------------ *)
(** * More on the growth-rate derivation *)

Module GrowthShape.

Import Signals PyFacts.
Local Open Scope string_scope.
Local Open Scope list_scope.
Local Open Scope Q_scope.

(** ** Monthly buckets *)

Lemma add_to_group_has_keys (key : Z) (value : Q) (groups : list (Z * Q))
      (k : Z) :
  k = key \/ In k (Pandas.keys groups) ->
  In k (Pandas.keys (Pandas.add_to_group key value groups)).
Proof.
  unfold Pandas.keys.
  induction groups as [| [k' total] rest IH]; simpl.
  - intros [-> | []]. left. reflexivity.
  - destruct (Z.ltb_spec key k') as [Lt | Ge]; simpl.
    + intros [-> | [-> | H]]; auto.
    + destruct (Z.eqb_spec key k') as [-> | Ne]; simpl.
      * intros [-> | [-> | H]]; auto.
      * intros [-> | [-> | H]]; auto.
Qed.

Lemma groupby_sum_keys (rows : list (Z * Q)) (k : Z) :
  In k (Pandas.keys (Pandas.groupby_sum rows)) <-> In k (map fst rows).
Proof.
  unfold Pandas.groupby_sum.
  assert (forall groups : list (Z * Q),
             In k (Pandas.keys
                     (fold_left
                        (fun g r => Pandas.add_to_group (fst r) (snd r) g)
                        rows groups))
             <-> In k (Pandas.keys groups) \/ In k (map fst rows)) as G.
  { induction rows as [| r rows IH]; intro groups; simpl.
    - tauto.
    - rewrite IH. split.
      + intros [H | H]; [| tauto].
        apply PandasFacts.add_to_group_keys in H.
        destruct H as [-> | H]; tauto.
      + intros [H | [H | H]]; [| | tauto];
          left; apply add_to_group_has_keys; auto. }
  rewrite G. simpl. tauto.
Qed.

Lemma add_to_group_nonneg (key : Z) (value : Q) (groups : list (Z * Q)) :
  0 <= value -> Forall (fun g => 0 <= snd g) groups ->
  Forall (fun g => 0 <= snd g) (Pandas.add_to_group key value groups).
Proof.
  intros Hv. induction groups as [| [k' total] rest IH]; intro H; simpl.
  - constructor; [exact Hv | constructor].
  - inversion H as [| ? ? Ht Hrest]; subst. simpl in Ht.
    destruct (key <? k')%Z; [constructor; [exact Hv | exact H]|].
    destruct (key =? k')%Z.
    + constructor; [simpl; lra | exact Hrest].
    + constructor; [exact Ht | apply IH; exact Hrest].
Qed.

Lemma groupby_sum_nonneg (rows : list (Z * Q)) :
  Forall (fun r => 0 <= snd r) rows ->
  Forall (fun g => 0 <= snd g) (Pandas.groupby_sum rows).
Proof.
  unfold Pandas.groupby_sum.
  assert (forall groups : list (Z * Q),
             Forall (fun r => 0 <= snd r) rows ->
             Forall (fun g => 0 <= snd g) groups ->
             Forall (fun g => 0 <= snd g)
                    (fold_left
                       (fun g r => Pandas.add_to_group (fst r) (snd r) g)
                       rows groups)) as G.
  { induction rows as [| r rows IH]; intros groups Hr Hg; [exact Hg|].
    inversion Hr; subst. simpl. apply IH; [assumption|].
    apply add_to_group_nonneg; assumption. }
  intro H. apply G; [exact H | constructor].
Qed.

(** The monthly totals of a set of usage rows come in strictly increasing
    month order, there is a bucket exactly for the months that occur in
    the rows, and the buckets add up to the spend of all rows. *)
Theorem monthly_totals_are_chronological (account_data : list UsageRow) :
  StronglySorted Z.lt (Pandas.keys (monthly_totals account_data))
  /\ (forall m : Z,
         In m (Pandas.keys (monthly_totals account_data))
         <-> In m (map month_idx account_data))
  /\ Pandas.grand_total (monthly_totals account_data)
     == fold_right Qplus 0 (map spend account_data).
Proof.
  unfold monthly_totals.
  destruct (PandasFacts.groupby_sum_sorted_and_complete
              (map (fun r => (month_idx r, spend r)) account_data))
    as [S T].
  split; [exact S|]. split.
  - intro m. rewrite groupby_sum_keys, map_map. simpl. tauto.
  - rewrite T. unfold Pandas.grand_total. rewrite map_map. simpl.
    reflexivity.
Qed.

(** ** Which rows matter *)

(** The derived growth rate of an account depends only on the rows of
    that account: two histories with the same rows for it give the same
    rate, and a history without any row for it gives 0. *)
Theorem growth_rate_reads_own_rows (df1 df2 : list UsageRow) (aid : string) :
  (filter (fun r => usage_account_id r =? aid) df1
   = filter (fun r => usage_account_id r =? aid) df2 ->
   compute_growth_rate df1 aid = compute_growth_rate df2 aid)
  /\ (~ In aid (map usage_account_id df1) ->
      compute_growth_rate df1 aid = Fin 0).
Proof.
  split.
  - intro E. unfold compute_growth_rate. rewrite E. reflexivity.
  - intro H. unfold compute_growth_rate.
    assert (filter (fun r => usage_account_id r =? aid) df1 = []) as ->;
      [| reflexivity].
    induction df1 as [| r l IH]; [reflexivity|].
    simpl in *.
    destruct (String.eqb_spec (usage_account_id r) aid) as [E | N];
      [tauto|].
    apply IH. tauto.
Qed.

Lemma growth_rate_reads_own_rows_witness :
  compute_growth_rate Sample.growing_history "ACC-4242" = Fin 0
  /\ compute_growth_rate
       (Sample.usage "ACC-7" 5 1 :: Sample.growing_history) "ACC-1002"
     = compute_growth_rate Sample.growing_history "ACC-1002".
Proof.
  split.
  - apply (proj2 (growth_rate_reads_own_rows
                    Sample.growing_history Sample.growing_history
                    "ACC-4242")).
    simpl. intuition discriminate.
  - apply (proj1 (growth_rate_reads_own_rows
                    (Sample.usage "ACC-7" 5 1 :: Sample.growing_history)
                    Sample.growing_history "ACC-1002")).
    reflexivity.
Defined.

(** ** Steady growth *)

Lemma average_of_constant (l : list Q) (g : Q) :
  l <> [] -> Forall (fun c => c == g) l -> Spec.average l == g.
Proof.
  intros N H. unfold Spec.average.
  assert (fold_right Qplus 0 l
          == inject_Z (Z.of_nat (List.length l)) * g) as S.
  { clear N. induction H as [| c l Hc _ IH].
    - simpl. ring.
    - cbn [fold_right List.length]. rewrite IH, Hc, Nat2Z.inj_succ.
      unfold Z.succ. rewrite inject_Z_plus. change (inject_Z 1) with 1.
      ring. }
  rewrite S.
  assert (0 < inject_Z (Z.of_nat (List.length l))) as P.
  { destruct l as [| c l]; [congruence|].
    change 0 with (inject_Z 0). rewrite <- Zlt_Qlt. simpl. lia. }
  field. lra.
Qed.

Lemma period_changes_nonempty (l : list Q) :
  (2 <= List.length l)%nat -> Spec.period_changes l <> [].
Proof.
  destruct l as [| p [| c rest]]; simpl; try lia. discriminate.
Qed.

Lemma last_n_length (n : nat) (l : list Q) :
  List.length (Spec.last_n n l) = Nat.min n (List.length l).
Proof.
  rewrite <- SignalFacts.tail_is_last_n. unfold Pandas.tail.
  rewrite length_skipn. lia.
Qed.

(** When each of the last four buckets is nonzero and grows over its
    predecessor by the same rate g, the derived growth rate is the
    compounded (1 + g)^12 - 1; constant buckets give 0. *)
Theorem steady_growth_is_compounded (df : list UsageRow) (aid : string)
        (g : Q) :
  let recent := Spec.last_n 4 (account_totals df aid) in
  (2 <= List.length (account_totals df aid))%nat ->
  Forall Spec.nonzero recent ->
  Forall (fun change => change == g) (Spec.period_changes recent) ->
  PyFloat.eq (compute_growth_rate df aid) (Fin ((1 + g) ^ 12 - 1)).
Proof.
  cbv zeta. intros Len NZ Steady.
  apply (PyFloatFacts.float_eq_trans
           _ _ _ (SignalFacts.growth_rate_of_positive_buckets df aid Len NZ)).
  simpl. unfold Spec.annualized.
  rewrite (average_of_constant _ g); [reflexivity | | exact Steady].
  apply period_changes_nonempty. rewrite last_n_length. lia.
Qed.

Lemma steady_growth_is_compounded_witness :
  PyFloat.eq (compute_growth_rate Sample.growing_history "ACC-1002")
             (Fin ((1 + 0.1) ^ 12 - 1)).
Proof.
  apply (steady_growth_is_compounded Sample.growing_history "ACC-1002" 0.1).
  - vm_compute. lia.
  - vm_compute. repeat constructor; discriminate.
  - vm_compute. repeat constructor.
Defined.

(** ** Non-negative spend *)

Lemma changes_from_of_nonneg (prev : Q) (l : list Q) :
  0 <= prev -> Forall (fun q => 0 <= q) l ->
  Forall (fun c => c = NaN \/ Spec.finite_or_pinf c)
         (Pandas.changes_from prev l).
Proof.
  revert prev. induction l as [| cur rest IH]; intros prev Hp Hl.
  - constructor.
  - inversion Hl as [| ? ? Hcur Hrest]; subst.
    simpl. constructor; [| apply IH; assumption].
    unfold PyFloat.div, PyFloat.signed_inf.
    destruct (Qeq_bool prev 0); [| right; exact I].
    destruct (Qcompare cur 0) eqn:C.
    + left. reflexivity.
    + apply Qlt_alt in C. lra.
    + right. exact I.
Qed.

Lemma dropna_keeps_numbers (l : list pyfloat) :
  Forall (fun c => c = NaN \/ Spec.finite_or_pinf c) l ->
  Forall Spec.finite_or_pinf (Pandas.dropna l).
Proof.
  unfold Pandas.dropna.
  induction 1 as [| c l Hc _ IH]; [constructor|].
  simpl. destruct c; simpl; try exact IH.
  - constructor; [exact I | exact IH].
  - constructor; [exact I | exact IH].
  - constructor; [| exact IH]. destruct Hc as [Hc | Hc]; [discriminate | exact Hc].
Qed.

Lemma sum_of_numbers (l : list pyfloat) :
  Forall Spec.finite_or_pinf l ->
  forall acc : pyfloat,
    Spec.finite_or_pinf acc ->
    Spec.finite_or_pinf (fold_left PyFloat.add l acc).
Proof.
  induction 1 as [| c l Hc _ IH]; intros acc Hacc; [exact Hacc|].
  simpl. apply IH. destruct acc, c; simpl in *; tauto.
Qed.

Lemma mean_of_numbers (l : list pyfloat) :
  Forall Spec.finite_or_pinf l -> l <> [] ->
  Spec.finite_or_pinf (Pandas.mean l).
Proof.
  intros H N. unfold Pandas.mean, Pandas.sum.
  pose proof (sum_of_numbers l H (Fin 0) I) as S.
  pose proof (SignalFacts.count_nonzero l N) as C.
  destruct (fold_left PyFloat.add l (Fin 0)); simpl in S; try tauto.
  - unfold PyFloat.div. rewrite C. exact I.
  - unfold PyFloat.div.
    destruct (Py.ltb (inject_Z (Z.of_nat (List.length l))) 0) eqn:L;
      [| exact I].
    apply ltb_true in L.
    assert (0 <= inject_Z (Z.of_nat (List.length l))) as P.
    { change 0 with (inject_Z 0). rewrite <- Zle_Qle. lia. }
    lra.
Qed.

Lemma twelfth_power_nonneg (x : Q) : 0 <= x ^ 12.
Proof.
  assert (x ^ 12 == (x ^ 6) * (x ^ 6)) as E by (simpl; ring).
  rewrite E. set (z := x ^ 6). nra.
Qed.

Lemma annualize_of_number (a : pyfloat) :
  Spec.finite_or_pinf a ->
  Spec.finite_or_pinf (annualize a)
  /\ (forall q : Q, annualize a = Fin q -> - 1 <= q).
Proof.
  destruct a as [p | | |]; simpl; try tauto; intros _.
  - unfold annualize.
    change (PyFloat.add (Fin 1) (Fin p)) with (Fin (1 + p)).
    destruct (PyFloatFacts.pow12_finite (1 + p)) as [y [-> Ey]].
    simpl. split; [exact I|].
    intros q E. injection E as <-.
    pose proof (twelfth_power_nonneg (1 + p)). lra.
  - split; [vm_compute; exact I|].
    intros q E. vm_compute in E. discriminate.
Qed.

Lemma Forall_skipn {A : Type} (P : A -> Prop) (n : nat) (l : list A) :
  Forall P l -> Forall P (skipn n l).
Proof.
  revert l. induction n as [| n IH]; intros l H; [exact H|].
  destruct l as [| a l]; [constructor|].
  inversion H; subst. simpl. apply IH. assumption.
Qed.

Lemma account_totals_nonneg (df : list UsageRow) (aid : string) :
  (forall r : UsageRow, In r df -> 0 <= spend r) ->
  Forall (fun q => 0 <= q) (account_totals df aid).
Proof.
  intro H. unfold account_totals, monthly_totals.
  apply Forall_map.
  apply groupby_sum_nonneg. apply Forall_map. apply Forall_forall.
  intros r Hr. simpl. apply H. apply filter_In in Hr. tauto.
Qed.

(** When no usage row has a negative spend, the derived growth rate is a
    number of at least -1 or plus infinity: never NaN, never minus
    infinity, never below -100%. *)
Theorem growth_rate_of_nonnegative_spend (df : list UsageRow)
        (aid : string) :
  (forall r : UsageRow, In r df -> 0 <= spend r) ->
  Spec.finite_or_pinf (compute_growth_rate df aid)
  /\ (forall q : Q, compute_growth_rate df aid = Fin q -> - 1 <= q).
Proof.
  intro H. rewrite SignalFacts.compute_growth_rate_unfold. cbv zeta.
  destruct (List.length (account_totals df aid) <? 2)%nat;
    [split; [exact I | intros q E; injection E as <-; lra]|].
  pose proof (Forall_skipn _ (List.length (account_totals df aid) - 4)
                           _ (account_totals_nonneg df aid H)) as T.
  fold (Pandas.tail 4 (account_totals df aid)) in T.
  assert (Forall Spec.finite_or_pinf
                 (Pandas.dropna
                    (Pandas.pct_change
                       (Pandas.tail 4 (account_totals df aid))))) as D.
  { apply dropna_keeps_numbers.
    destruct (Pandas.tail 4 (account_totals df aid)) as [| p rest];
      [constructor|].
    inversion T; subst. simpl.
    constructor; [left; reflexivity|].
    apply changes_from_of_nonneg; assumption. }
  destruct (Pandas.dropna _) as [| g gs] eqn:G;
    [split; [exact I | intros q E; injection E as <-; lra]|].
  apply annualize_of_number. apply mean_of_numbers; [exact D | discriminate].
Qed.

Lemma growth_rate_of_nonnegative_spend_witness :
  Spec.finite_or_pinf
    (compute_growth_rate Sample.restart_history "ACC-1001")
  /\ Spec.finite_or_pinf
       (compute_growth_rate Sample.growing_history "ACC-1002").
Proof.
  split.
  - apply (growth_rate_of_nonnegative_spend
             Sample.restart_history "ACC-1001").
    intros r Hr. simpl in Hr.
    destruct Hr as [<- | [<- | []]]; vm_compute; discriminate.
  - apply (growth_rate_of_nonnegative_spend
             Sample.growing_history "ACC-1002").
    intros r Hr. simpl in Hr.
    destruct Hr as [<- | [<- | [<- | [<- | [<- | [<- | []]]]]]];
      vm_compute; discriminate.
Defined.

(** ** Blending *)

Lemma round4_error (x : Q) :
  x - 0.00005 <= Py.round x 4 <= x + 0.00005.
Proof.
  unfold Py.round. change (inject_Z (10 ^ Z.of_nat 4)) with 10000.
  pose proof (CompositeShape.round_half_even_error (x * 10000)) as [Lo Hi].
  set (r := inject_Z (Py.round_half_even (x * 10000))) in *. q_arith.
Qed.

(** When the derived growth rate is a finite number d, the blended and
    rounded [computed_growth_rate] is a finite number within 0.00005 of
    0.7 times the stored rate plus 0.3 times d. *)
Theorem blended_growth_is_close (accounts_df : list AccountRecord)
        (monthly_usage_df : list UsageRow) (row : AccountRecord) (d : Q) :
  PyFloat.is_finite
    (compute_growth_rate monthly_usage_df (account_id row)) d ->
  exists q : Q,
    computed_growth_rate (signal_of accounts_df monthly_usage_df row) = Fin q
    /\ 0.7 * growth_rate row + 0.3 * d - 0.00005 <= q
    /\ q <= 0.7 * growth_rate row + 0.3 * d + 0.00005.
Proof.
  intro H. destruct (SignalFacts.is_finite_inv _ _ H) as [p [E Ep]].
  unfold signal_of. cbv zeta. simpl computed_growth_rate.
  rewrite E. unfold blended_growth. simpl.
  eexists. split; [reflexivity|].
  pose proof (round4_error (growth_rate row * 0.7 + p * 0.3)) as [Lo Hi].
  set (r := Py.round _ 4) in *. lra.
Qed.

Lemma blended_growth_is_close_witness :
  exists q : Q,
    computed_growth_rate
      (signal_of [Sample.idle_account] Sample.growing_history
                 Sample.idle_account)
    = Fin q
    /\ 0.7 * 0.10 + 0.3 * 0 - 0.00005 <= q
    /\ q <= 0.7 * 0.10 + 0.3 * 0 + 0.00005.
Proof.
  apply (blended_growth_is_close
           [Sample.idle_account] Sample.growing_history
           Sample.idle_account 0).
  vm_compute. reflexivity.
Defined.

End GrowthShape.

(* ------------------------------------------------------------------ *)
(** * More on the marketplace ratio *)

Module GeneratorShape.

Import Generator PyFacts.
Local Open Scope Q_scope.

Lemma round2_error (x : Q) : x - 0.005 <= Py.round x 2 <= x + 0.005.
Proof.
  unfold Py.round. change (inject_Z (10 ^ Z.of_nat 2)) with 100.
  pose proof (CompositeShape.round_half_even_error (x * 100)) as [Lo Hi].
  set (r := inject_Z (Py.round_half_even (x * 100))) in *. q_arith.
Qed.

(** With a positive direct spend the ratio is the quotient of marketplace
    spend by direct spend rounded to 2 decimals: it is within 0.005 of
    the quotient, and not negative when the marketplace spend is not. *)
Theorem marketplace_ratio_of_positive_direct
        (marketplace_spend direct_spend : Q) :
  0 < direct_spend ->
  exists ratio : Q,
    marketplace_to_direct marketplace_spend direct_spend = Some ratio
    /\ marketplace_spend / direct_spend - 0.005 <= ratio
    /\ ratio <= marketplace_spend / direct_spend + 0.005
    /\ (0 <= marketplace_spend -> 0 <= ratio).
Proof.
  intro P. unfold marketplace_to_direct, py_div.
  assert ((direct_spend >? 0) = true) as -> by (apply gtb_true; exact P).
  destruct (Qeq_bool direct_spend 0) eqn:Z;
    [apply Qeq_bool_iff in Z; lra|].
  eexists. split; [reflexivity|].
  pose proof (round2_error (marketplace_spend / direct_spend)) as [Lo Hi].
  split; [exact Lo|]. split; [exact Hi|].
  intro M. apply (RoundFacts.round_lower _ 2 0).
  change (inject_Z 0) with 0.
  apply Qle_shift_div_l; [exact P | lra].
Qed.

Lemma marketplace_ratio_of_positive_direct_witness :
  exists ratio : Q,
    marketplace_to_direct 5 3 = Some ratio
    /\ 5 / 3 - 0.005 <= ratio
    /\ ratio <= 5 / 3 + 0.005
    /\ (0 <= 5 -> 0 <= ratio).
Proof.
  apply (marketplace_ratio_of_positive_direct 5 3). lra.
Defined.

End GeneratorShape.

(* ------------------------------------------------------------------ *)
(** * The colours of scores, stages and signals *)

Module StylesFacts.

Import Styles PyFacts.
Local Open Scope string_scope.
Local Open Scope Q_scope.

(** The colour of a score is the colour of the stage that the thresholds
    give to that score, except between 33 and 48: there the stage is
    "Nurture", whose tag is grey, and the score is shown in the red of
    "At Risk". *)
Theorem score_color_and_stage_color (score : Q) :
  (score < 33 \/ 48 <= score ->
   get_score_color score = stage_tag_color (Scoring.assign_stage score))
  /\ (33 <= score /\ score < 48 ->
      get_score_color score = "#DC2626"
      /\ stage_tag_color (Scoring.assign_stage score) = "#64748B"
      /\ stage_tag_color "At Risk" = "#DC2626").
Proof.
  unfold get_score_color. split.
  - intros [Low | High].
    + rewrite (StageFacts.stage_at_risk score Low).
      py_cases; try lra. reflexivity.
    + destruct (Qlt_le_dec score 63) as [A | A];
        [rewrite (StageFacts.stage_qualified score High A);
         py_cases; try lra; reflexivity|].
      destruct (Qlt_le_dec score 78) as [B | B];
        [rewrite (StageFacts.stage_high_velocity score A B);
         py_cases; try lra; reflexivity|].
      rewrite (StageFacts.stage_enterprise_ready score B).
      py_cases; try lra. reflexivity.
  - intros [Lo Hi].
    rewrite (StageFacts.stage_nurture score Lo Hi).
    split; [py_cases; try lra; reflexivity|].
    split; reflexivity.
Qed.

Lemma score_color_and_stage_color_witness :
  get_score_color 70 = stage_tag_color (Scoring.assign_stage 70)
  /\ get_score_color 40 = "#DC2626".
Proof.
  split.
  - apply (proj1 (score_color_and_stage_color 70)). right. lra.
  - apply (proj2 (score_color_and_stage_color 40)). split; lra.
Defined.

Ltac pick_rule :=
  eexists; eexists; split; [reflexivity | simpl; auto 12].

(** A metric without rules gets the grey colour and no label.  A metric
    with rules always gets the colour and the label of one of its rules
    when the value is not below its lowest threshold (-999 for the growth
    rate, 0 for the others), and days of inactivity do so for every
    value. *)
Theorem signal_health_uses_a_rule (metric : string) (value : Q) :
  (~ In metric (map fst rules) ->
   get_signal_health metric value = ("#94A3B8", ""))
  /\ (In metric (map fst rules) ->
      (metric = "growth_rate" -> - 999 <= value) ->
      (metric <> "growth_rate" -> metric <> "days_inactive" ->
       0 <= value) ->
      exists (rule_list : list Rule) (threshold : Q),
        rules_lookup rules metric = Some rule_list
        /\ In (threshold,
               fst (get_signal_health metric value),
               snd (get_signal_health metric value))
              rule_list).
Proof.
  split.
  - intro H. unfold rules in H. simpl in H.
    unfold get_signal_health, rules, rules_lookup.
    repeat match goal with
    | |- context [?k =? metric] =>
        let E := fresh "E" in
        destruct (String.eqb_spec k metric) as [E | E]; [exfalso; tauto|]
    end.
    destruct (String.eqb_spec metric "error_rate_inv");
      [exfalso; apply H; subst; auto 12|].
    destruct (String.eqb_spec metric "days_inactive");
      [exfalso; apply H; subst; auto 12|].
    reflexivity.
  - intros H Growth Other. unfold rules in H. simpl in H.
    destruct H as [<- | [<- | [<- | [<- | [<- | [<- | [<- | [<- | []]]]]]]]];
      unfold get_signal_health; simpl rules_lookup; cbv zeta;
      cbn [String.eqb Ascii.eqb Bool.eqb first_rule];
      try (assert (- 999 <= value) as G by (apply Growth; reflexivity));
      try (assert (0 <= value) as G by (apply Other; discriminate));
      py_cases; try lra; pick_rule.
Qed.

Lemma signal_health_uses_a_rule_witness :
  get_signal_health "latency" 3 = ("#94A3B8", "")
  /\ exists (rule_list : list Rule) (threshold : Q),
      rules_lookup rules "prod_ratio" = Some rule_list
      /\ In (threshold,
             fst (get_signal_health "prod_ratio" 0.6),
             snd (get_signal_health "prod_ratio" 0.6))
            rule_list.
Proof.
  split.
  - apply (proj1 (signal_health_uses_a_rule "latency" 3)).
    simpl. intuition discriminate.
  - apply (proj2 (signal_health_uses_a_rule "prod_ratio" 0.6)).
    + simpl. tauto.
    + intro E. discriminate E.
    + intros _ _. lra.
Defined.

End StylesFacts.
